(** * Energy device monitor: sensor entities and controller

    A shallow embedding of
    [custom_components/energy_device_monitor/sensor.py] and
    [custom_components/energy_device_monitor/controller.py].

    - Python exceptions are the [Raise] results of the monad [py].
    - A sensor object is a record; its instance attributes that the class
      body only annotates ([low_tariff_state] and the three others) are
      [option] fields, [None] standing for "attribute not set", so that
      reading one raises [AttributeError].
    - Methods and properties run in the monad [M], which threads the sensor
      object and an exception result.
    - The host's state machine [hass.states] changes between calls: it is
      an argument of the methods that read it, not a field of the object.
    - Python's [float] is IEEE 754 binary64: values are [spec_float] with
      [SFmul 53 1024] and [SFadd 53 1024].
    - Statements that only feed the host's display (entity ids, translation
      keys and placeholders) are left out. *)

From Stdlib Require Import ZArith String List Bool.
From Stdlib Require Import Floats.SpecFloat.
From stdpp Require Import base option gmap strings.

Local Open Scope string_scope.

(** ** Python exceptions *)

Inductive exn : Set :=
| AttributeError
| TypeError
| ValueError
| KeyError
| RecursionError
| ZoneInfoNotFoundError.

Inductive py (A : Type) : Type :=
| Return (a : A)
| Raise (e : exn).

Arguments Return {A} a.
Arguments Raise {A} e.

Definition py_bind {A B : Type} (c : py A) (k : A -> py B) : py B :=
  match c with
  | Return a => k a
  | Raise e => Raise e
  end.

(** [try: body  except ValueError: handler] *)
Definition try_except_ValueError {A : Type} (body handler : py A) : py A :=
  match body with
  | Raise ValueError => handler
  | r => r
  end.

(** ** Python floats (binary64) *)

Definition float : Set := spec_float.

Definition float_mul : float -> float -> float := SFmul 53 1024.
Definition float_add : float -> float -> float := SFadd 53 1024.
Definition float_div : float -> float -> float := SFdiv 53 1024.
Definition float_of_Z (z : Z) : float := binary_normalize 53 1024 z 0 false.

(** An operand of type [float | None]: arithmetic on [None] raises
    [TypeError] (unsupported operand type). *)
Definition py_mul (a b : option float) : py float :=
  match a, b with
  | Some x, Some y => Return (float_mul x y)
  | _, _ => Raise TypeError
  end.

Definition py_add (a b : option float) : py float :=
  match a, b with
  | Some x, Some y => Return (float_add x y)
  | _, _ => Raise TypeError
  end.

(** ** The host's state machine, as far as the sensors read it *)

Module HA.

(** [homeassistant.const.STATE_UNAVAILABLE] *)
Definition STATE_UNAVAILABLE : string := "unavailable".

(** [homeassistant.core.State]; the code tests [state.state is None]. *)
Record State : Set := { state : option string }.

End HA.

(** [hass.states]: entity id to state object; [hass.states.get] is [!!]. *)
Abbreviation States := (gmap string HA.State).

(** ** const.py *)

Definition CONF_HIGH_CONSUMPTION_ENTITY : string := "conf_high_consumption_entity".
Definition CONF_HIGH_TARIFF_ENTITY : string := "conf_high_tariff_entity".
Definition CONF_LOW_CONSUMPTION_ENTITY : string := "conf_low_consumption_entity".
Definition CONF_LOW_TARIFF_ENTITY : string := "conf_low_tariff_entity".
Definition CONF_DEVICE_NAME : string := "conf_device_name".
Definition DOMAIN : string := "energy_device_monitor".

(** ** sensor.py *)

(** [@dataclass EnergyDeviceEntityState]: [state] defaults to [None]. *)
Record EnergyDeviceEntityState : Set := {
  available : bool;
  state : option float
}.

(** *** The sensor object *)

(** The four concrete classes of the module. *)
Inductive SensorClass : Set :=
| TotalDailyCost
| DailyLowCost
| DailyHighCost
| TotalDailyConsumption.

Inductive SensorDeviceClass : Set := MONETARY | ENERGY.
Inductive SensorStateClass : Set := TOTAL | TOTAL_INCREASING.

(** The [_attr_*] values a subclass constructor assigns. *)
Record SensorAttrs : Set := {
  _attr_unique_id : string;
  _attr_device_class : SensorDeviceClass;
  _attr_native_unit_of_measurement : string;
  _attr_suggested_display_precision : Z;
  _attr_state_class : option SensorStateClass
}.

(** An instance of [EnergyDeviceMonitorSensor].  [_entry] and [_subentry]
    hold the [data] dictionaries of the config entry and subentry.  The
    last four fields are only annotated in the class body: no attribute
    exists until [async_update] assigns one. *)
Record EnergyDeviceMonitorSensor : Type := {
  __class__ : SensorClass;
  _entry : gmap string string;
  _subentry : gmap string string;
  _device_name : string;
  _device_friendly_name : string;
  _include_low_consumption : bool;
  _include_high_consumption : bool;
  _include_low_tariff : bool;
  _include_high_tariff : bool;
  _attrs : option SensorAttrs;
  low_tariff_state : option EnergyDeviceEntityState;
  high_tariff_state : option EnergyDeviceEntityState;
  low_consumption_state : option EnergyDeviceEntityState;
  high_consumption_state : option EnergyDeviceEntityState
}.

(** Attribute assignments [self.x = v]. *)
Definition set_low_tariff_state (v : EnergyDeviceEntityState)
    (self : EnergyDeviceMonitorSensor) : EnergyDeviceMonitorSensor :=
  {| __class__ := __class__ self; _entry := _entry self;
     _subentry := _subentry self; _device_name := _device_name self;
     _device_friendly_name := _device_friendly_name self;
     _include_low_consumption := _include_low_consumption self;
     _include_high_consumption := _include_high_consumption self;
     _include_low_tariff := _include_low_tariff self;
     _include_high_tariff := _include_high_tariff self;
     _attrs := _attrs self;
     low_tariff_state := Some v;
     high_tariff_state := high_tariff_state self;
     low_consumption_state := low_consumption_state self;
     high_consumption_state := high_consumption_state self |}.

Definition set_high_tariff_state (v : EnergyDeviceEntityState)
    (self : EnergyDeviceMonitorSensor) : EnergyDeviceMonitorSensor :=
  {| __class__ := __class__ self; _entry := _entry self;
     _subentry := _subentry self; _device_name := _device_name self;
     _device_friendly_name := _device_friendly_name self;
     _include_low_consumption := _include_low_consumption self;
     _include_high_consumption := _include_high_consumption self;
     _include_low_tariff := _include_low_tariff self;
     _include_high_tariff := _include_high_tariff self;
     _attrs := _attrs self;
     low_tariff_state := low_tariff_state self;
     high_tariff_state := Some v;
     low_consumption_state := low_consumption_state self;
     high_consumption_state := high_consumption_state self |}.

Definition set_low_consumption_state (v : EnergyDeviceEntityState)
    (self : EnergyDeviceMonitorSensor) : EnergyDeviceMonitorSensor :=
  {| __class__ := __class__ self; _entry := _entry self;
     _subentry := _subentry self; _device_name := _device_name self;
     _device_friendly_name := _device_friendly_name self;
     _include_low_consumption := _include_low_consumption self;
     _include_high_consumption := _include_high_consumption self;
     _include_low_tariff := _include_low_tariff self;
     _include_high_tariff := _include_high_tariff self;
     _attrs := _attrs self;
     low_tariff_state := low_tariff_state self;
     high_tariff_state := high_tariff_state self;
     low_consumption_state := Some v;
     high_consumption_state := high_consumption_state self |}.

Definition set_high_consumption_state (v : EnergyDeviceEntityState)
    (self : EnergyDeviceMonitorSensor) : EnergyDeviceMonitorSensor :=
  {| __class__ := __class__ self; _entry := _entry self;
     _subentry := _subentry self; _device_name := _device_name self;
     _device_friendly_name := _device_friendly_name self;
     _include_low_consumption := _include_low_consumption self;
     _include_high_consumption := _include_high_consumption self;
     _include_low_tariff := _include_low_tariff self;
     _include_high_tariff := _include_high_tariff self;
     _attrs := _attrs self;
     low_tariff_state := low_tariff_state self;
     high_tariff_state := high_tariff_state self;
     low_consumption_state := low_consumption_state self;
     high_consumption_state := Some v |}.

Definition set_attrs (a : SensorAttrs)
    (self : EnergyDeviceMonitorSensor) : EnergyDeviceMonitorSensor :=
  {| __class__ := __class__ self; _entry := _entry self;
     _subentry := _subentry self; _device_name := _device_name self;
     _device_friendly_name := _device_friendly_name self;
     _include_low_consumption := _include_low_consumption self;
     _include_high_consumption := _include_high_consumption self;
     _include_low_tariff := _include_low_tariff self;
     _include_high_tariff := _include_high_tariff self;
     _attrs := Some a;
     low_tariff_state := low_tariff_state self;
     high_tariff_state := high_tariff_state self;
     low_consumption_state := low_consumption_state self;
     high_consumption_state := high_consumption_state self |}.

(** *** The monad of methods: the object and an exception result *)

Definition M (A : Type) : Type :=
  EnergyDeviceMonitorSensor -> py A * EnergyDeviceMonitorSensor.

Definition ret {A : Type} (a : A) : M A := fun self => (Return a, self).

Definition bind {A B : Type} (c : M A) (k : A -> M B) : M B :=
  fun self =>
    match c self with
    | (Return a, self') => k a self'
    | (Raise e, self') => (Raise e, self')
    end.

Definition lift {A : Type} (c : py A) : M A := fun self => (c, self).

(** [self.x] for a plain field that the constructor always sets. *)
Definition field {A : Type} (f : EnergyDeviceMonitorSensor -> A) : M A :=
  fun self => (Return (f self), self).

(** [self.x] for an attribute that may not exist yet. *)
Definition getattr {A : Type} (f : EnergyDeviceMonitorSensor -> option A) : M A :=
  fun self =>
    match f self with
    | Some v => (Return v, self)
    | None => (Raise AttributeError, self)
    end.

(** [self.x = v] *)
Definition assign (upd : EnergyDeviceMonitorSensor -> EnergyDeviceMonitorSensor)
  : M unit :=
  fun self => (Return tt, upd self).

(** [d[k]] on a dictionary: [KeyError] on a missing key. *)
Definition subscript (d : gmap string string) (k : string) : py string :=
  match d !! k with
  | Some v => Return v
  | None => Raise KeyError
  end.

(** [x and y]: [y] is evaluated only when [x] is true; on booleans the
    result is the conjunction. *)
Definition py_and (x y : M bool) : M bool :=
  bind x (fun a => if a then y else ret a).

Declare Scope M_scope.
Delimit Scope M_scope with M.
Bind Scope M_scope with M.

Notation "'do' x <- c ; k" := (bind c (fun x => k))
  (at level 10, x name, c at level 100, k at level 200) : M_scope.
Notation "'run' c ; k" := (bind c (fun _ => k))
  (at level 10, c at level 100, k at level 200) : M_scope.

(** *** Reading the host: the base-class update methods *)

Section Tracker.

(** [float(s)] on a string: [None] stands for [ValueError], the only
    exception the builtin raises on a [str] argument. *)
Variable float_of_str : string -> option float.

Definition py_float (s : string) : py float :=
  match float_of_str s with
  | Some v => Return v
  | None => Raise ValueError
  end.

(** [EnergyDeviceMonitorSensor._async_update_entity_state] *)
Definition _async_update_entity_state (hass_states : States) (entity_id : string)
  : py EnergyDeviceEntityState :=
  match hass_states !! entity_id with
  | None => Return {| available := false; state := None |}
  | Some st =>
      match HA.state st with
      | None => Return {| available := false; state := None |}
      | Some raw =>
          if String.eqb raw HA.STATE_UNAVAILABLE
          then Return {| available := false; state := None |}
          else
            try_except_ValueError
              (py_bind (py_float raw)
                 (fun v => Return {| available := true; state := Some v |}))
              (Return {| available := false; state := None |})
      end
  end.

(** [EnergyDeviceMonitorSensor.async_update]: each tracked input is read
    from the host again and its snapshot attribute is replaced. *)
Definition async_update (hass_states : States) : M unit :=
  (do include_low_tariff <- field _include_low_tariff ;
   run (if include_low_tariff : bool
        then
          do entry <- field _entry ;
          do entity_id <- lift (subscript entry CONF_LOW_TARIFF_ENTITY) ;
          do st <- lift (_async_update_entity_state hass_states entity_id) ;
          assign (set_low_tariff_state st)
        else ret tt) ;
   do include_high_tariff <- field _include_high_tariff ;
   run (if include_high_tariff : bool
        then
          do entry <- field _entry ;
          do entity_id <- lift (subscript entry CONF_HIGH_TARIFF_ENTITY) ;
          do st <- lift (_async_update_entity_state hass_states entity_id) ;
          assign (set_high_tariff_state st)
        else ret tt) ;
   do include_low_consumption <- field _include_low_consumption ;
   run (if include_low_consumption : bool
        then
          do subentry <- field _subentry ;
          do entity_id <- lift (subscript subentry CONF_LOW_CONSUMPTION_ENTITY) ;
          do st <- lift (_async_update_entity_state hass_states entity_id) ;
          assign (set_low_consumption_state st)
        else ret tt) ;
   do include_high_consumption <- field _include_high_consumption ;
   if include_high_consumption : bool
   then
     do subentry <- field _subentry ;
     do entity_id <- lift (subscript subentry CONF_HIGH_CONSUMPTION_ENTITY) ;
     do st <- lift (_async_update_entity_state hass_states entity_id) ;
     assign (set_high_consumption_state st)
   else ret tt)%M.

End Tracker.

(** *** Construction *)

Declare Scope py_scope.
Delimit Scope py_scope with py.
Bind Scope py_scope with py.

Notation "'do' x <- c ; k" := (py_bind c (fun x => k))
  (at level 10, x name, c at level 100, k at level 200) : py_scope.

(** [EnergyDeviceMonitorSensor.__init__], run for an object of class [cls].
    The result is the new object and the list [entities_to_track] handed to
    [async_track_state_change_event].  The four snapshot attributes are not
    assigned.  [CONF_DEVICE_FRIENDLY_NAME] is imported from const.py, which
    does not define it: the key is a parameter. *)
Definition base__init__ (cls : SensorClass) (CONF_DEVICE_FRIENDLY_NAME : string)
    (entry subentry : gmap string string)
    (include_low_consumption include_high_consumption
     include_low_tariff include_high_tariff : bool)
  : py (EnergyDeviceMonitorSensor * list string) :=
  (do device_name <- subscript subentry CONF_DEVICE_NAME ;
   do device_friendly_name <- subscript subentry CONF_DEVICE_FRIENDLY_NAME ;
   let self :=
     {| __class__ := cls; _entry := entry; _subentry := subentry;
        _device_name := device_name;
        _device_friendly_name := device_friendly_name;
        _include_low_consumption := include_low_consumption;
        _include_high_consumption := include_high_consumption;
        _include_low_tariff := include_low_tariff;
        _include_high_tariff := include_high_tariff;
        _attrs := None;
        low_tariff_state := None; high_tariff_state := None;
        low_consumption_state := None; high_consumption_state := None |} in
   let entities_to_track : list string := [] in
   do entities_to_track <-
     (if include_low_tariff
      then do e <- subscript entry CONF_LOW_TARIFF_ENTITY ;
           Return (entities_to_track ++ [e])%list
      else Return entities_to_track) ;
   do entities_to_track <-
     (if include_high_tariff
      then do e <- subscript entry CONF_HIGH_TARIFF_ENTITY ;
           Return (entities_to_track ++ [e])%list
      else Return entities_to_track) ;
   do entities_to_track <-
     (if include_low_consumption
      then do e <- subscript subentry CONF_LOW_CONSUMPTION_ENTITY ;
           Return (entities_to_track ++ [e])%list
      else Return entities_to_track) ;
   do entities_to_track <-
     (if include_high_consumption
      then do e <- subscript subentry CONF_HIGH_CONSUMPTION_ENTITY ;
           Return (entities_to_track ++ [e])%list
      else Return entities_to_track) ;
   Return (self, entities_to_track))%py.

(** [self.<snapshot>.available] and [self.<snapshot>.state] *)
Definition attr_available
    (f : EnergyDeviceMonitorSensor -> option EnergyDeviceEntityState) : M bool :=
  (do st <- getattr f ; ret (available st))%M.

Definition attr_state
    (f : EnergyDeviceMonitorSensor -> option EnergyDeviceEntityState)
  : M (option float) :=
  (do st <- getattr f ; ret (state st))%M.

(** *** datetime values, as far as [last_reset] builds them *)

Record date : Set := { year : Z; month : Z; day : Z }.

Record time : Set := { hour : Z; minute : Z; second : Z; microsecond : Z }.

(** [datetime.time.min] *)
Definition time_min : time :=
  {| hour := 0; minute := 0; second := 0; microsecond := 0 |}.

Record datetime (TZ : Type) : Type := {
  dt_date : date;
  dt_time : time;
  tzinfo : option TZ
}.

Arguments dt_date {TZ} d.
Arguments dt_time {TZ} d.
Arguments tzinfo {TZ} d.

(** [datetime.combine(date, time, tzinfo=tz)] *)
Definition datetime_combine {TZ : Type} (d : date) (t : time) (tz : TZ)
  : datetime TZ :=
  {| dt_date := d; dt_time := t; tzinfo := Some tz |}.

(** *** The four sensor classes *)

Module TotalDailyCostSensor.

Definition __init__ (CONF_DEVICE_FRIENDLY_NAME : string)
    (entry sub_entry : gmap string string)
  : py (EnergyDeviceMonitorSensor * list string) :=
  (do r <- base__init__ TotalDailyCost CONF_DEVICE_FRIENDLY_NAME entry sub_entry
             true true true true ;
   let self := fst r in
   Return
     (set_attrs
        {| _attr_unique_id := _device_name self ++ "_total_daily_cost_sensor";
           _attr_device_class := MONETARY;
           _attr_native_unit_of_measurement := "EUR";
           _attr_suggested_display_precision := 2;
           _attr_state_class := Some TOTAL |} self,
      snd r))%py.

Definition available : M bool :=
  py_and (attr_available low_tariff_state)
    (py_and (attr_available high_tariff_state)
       (py_and (attr_available low_consumption_state)
          (attr_available high_consumption_state))).

Definition native_value : M float :=
  (do lt <- attr_state low_tariff_state ;
   do lc <- attr_state low_consumption_state ;
   do low <- lift (py_mul lt lc) ;
   do ht <- attr_state high_tariff_state ;
   do hc <- attr_state high_consumption_state ;
   do high <- lift (py_mul ht hc) ;
   lift (py_add (Some low) (Some high)))%M.

Section LastReset.

(** [zoneinfo.ZoneInfo(key)] and the local reading [datetime.now(tz)]
    of the system clock. *)
Context {TZ : Type}.
Variable ZoneInfo : string -> py TZ.
Variable datetime_now : TZ -> datetime TZ.

(** [time_zone] is [self.hass.config.time_zone]. *)
Definition last_reset (time_zone : string) : M (datetime TZ) :=
  (do tz <- lift (ZoneInfo time_zone) ;
   ret (datetime_combine (dt_date (datetime_now tz)) time_min tz))%M.

End LastReset.

End TotalDailyCostSensor.

Module DailyLowCostSensor.

Definition __init__ (CONF_DEVICE_FRIENDLY_NAME : string)
    (entry sub_entry : gmap string string)
  : py (EnergyDeviceMonitorSensor * list string) :=
  (do r <- base__init__ DailyLowCost CONF_DEVICE_FRIENDLY_NAME entry sub_entry
             true false true false ;
   let self := fst r in
   Return
     (set_attrs
        {| _attr_unique_id := _device_name self ++ "_daily_low_cost_sensor";
           _attr_device_class := MONETARY;
           _attr_native_unit_of_measurement := "EUR";
           _attr_suggested_display_precision := 2;
           _attr_state_class := None |} self,
      snd r))%py.

Definition available : M bool :=
  py_and (attr_available low_tariff_state)
    (attr_available low_consumption_state).

Definition native_value : M float :=
  (do lt <- attr_state low_tariff_state ;
   do lc <- attr_state low_consumption_state ;
   lift (py_mul lt lc))%M.

End DailyLowCostSensor.

Module DailyHighCostSensor.

Definition __init__ (CONF_DEVICE_FRIENDLY_NAME : string)
    (entry sub_entry : gmap string string)
  : py (EnergyDeviceMonitorSensor * list string) :=
  (do r <- base__init__ DailyHighCost CONF_DEVICE_FRIENDLY_NAME entry sub_entry
             false true false true ;
   let self := fst r in
   Return
     (set_attrs
        {| _attr_unique_id := _device_name self ++ "_sensor_daily_high_cost";
           _attr_device_class := MONETARY;
           _attr_native_unit_of_measurement := "EUR";
           _attr_suggested_display_precision := 2;
           _attr_state_class := None |} self,
      snd r))%py.

Definition available : M bool :=
  py_and (attr_available high_tariff_state)
    (attr_available high_consumption_state).

Definition native_value : M float :=
  (do ht <- attr_state high_tariff_state ;
   do hc <- attr_state high_consumption_state ;
   lift (py_mul ht hc))%M.

End DailyHighCostSensor.

Module TotalDailyConsumptionSensor.

Definition __init__ (CONF_DEVICE_FRIENDLY_NAME : string)
    (entry sub_entry : gmap string string)
  : py (EnergyDeviceMonitorSensor * list string) :=
  (do r <- base__init__ TotalDailyConsumption CONF_DEVICE_FRIENDLY_NAME
             entry sub_entry true true false false ;
   let self := fst r in
   Return
     (set_attrs
        {| _attr_unique_id :=
             _device_name self ++ "_total_daily_consumption_sensor";
           _attr_device_class := ENERGY;
           _attr_native_unit_of_measurement := "kWh";
           _attr_suggested_display_precision := 3;
           _attr_state_class := Some TOTAL_INCREASING |} self,
      snd r))%py.

Definition available : M bool :=
  py_and (attr_available low_consumption_state)
    (attr_available high_consumption_state).

Definition native_value : M float :=
  (do lc <- attr_state low_consumption_state ;
   do hc <- attr_state high_consumption_state ;
   lift (py_add lc hc))%M.

End TotalDailyConsumptionSensor.

(** *** Property lookup on an object: the class of [self] selects the body *)

Definition sensor_available : M bool :=
  fun self =>
    match __class__ self with
    | TotalDailyCost => TotalDailyCostSensor.available self
    | DailyLowCost => DailyLowCostSensor.available self
    | DailyHighCost => DailyHighCostSensor.available self
    | TotalDailyConsumption => TotalDailyConsumptionSensor.available self
    end.

Definition sensor_native_value : M float :=
  fun self =>
    match __class__ self with
    | TotalDailyCost => TotalDailyCostSensor.native_value self
    | DailyLowCost => DailyLowCostSensor.native_value self
    | DailyHighCost => DailyHighCostSensor.native_value self
    | TotalDailyConsumption => TotalDailyConsumptionSensor.native_value self
    end.

(** Only [TotalDailyCostSensor] defines [last_reset].  The other classes
    inherit the host's [SensorEntity.last_reset], which returns
    [_attr_last_reset]; this module never assigns it, so it is [None]. *)
Definition sensor_last_reset {TZ : Type} (ZoneInfo : string -> py TZ)
    (datetime_now : TZ -> datetime TZ) (time_zone : string)
  : M (option (datetime TZ)) :=
  fun self =>
    match __class__ self with
    | TotalDailyCost =>
        (do d <- TotalDailyCostSensor.last_reset ZoneInfo datetime_now time_zone ;
         ret (Some d))%M self
    | DailyLowCost | DailyHighCost | TotalDailyConsumption => ret None self
    end.

(** [cls(hass, entry, subentry)] *)
Definition new (cls : SensorClass) (CONF_DEVICE_FRIENDLY_NAME : string)
    (entry subentry : gmap string string)
  : py (EnergyDeviceMonitorSensor * list string) :=
  match cls with
  | TotalDailyCost =>
      TotalDailyCostSensor.__init__ CONF_DEVICE_FRIENDLY_NAME entry subentry
  | DailyLowCost =>
      DailyLowCostSensor.__init__ CONF_DEVICE_FRIENDLY_NAME entry subentry
  | DailyHighCost =>
      DailyHighCostSensor.__init__ CONF_DEVICE_FRIENDLY_NAME entry subentry
  | TotalDailyConsumption =>
      TotalDailyConsumptionSensor.__init__ CONF_DEVICE_FRIENDLY_NAME entry subentry
  end.

(** *** The four tracked inputs, by name *)

Inductive Input : Set :=
| low_tariff
| high_tariff
| low_consumption
| high_consumption.

(** The snapshot attribute of an input. *)
Definition snapshot (i : Input) (self : EnergyDeviceMonitorSensor)
  : option EnergyDeviceEntityState :=
  match i with
  | low_tariff => low_tariff_state self
  | high_tariff => high_tariff_state self
  | low_consumption => low_consumption_state self
  | high_consumption => high_consumption_state self
  end.

(** The [_include_*] flag of an input. *)
Definition included (i : Input) (self : EnergyDeviceMonitorSensor) : bool :=
  match i with
  | low_tariff => _include_low_tariff self
  | high_tariff => _include_high_tariff self
  | low_consumption => _include_low_consumption self
  | high_consumption => _include_high_consumption self
  end.

(** The entity id of an input, as [async_update] looks it up. *)
Definition entity_id_of (i : Input) (self : EnergyDeviceMonitorSensor) : py string :=
  match i with
  | low_tariff => subscript (_entry self) CONF_LOW_TARIFF_ENTITY
  | high_tariff => subscript (_entry self) CONF_HIGH_TARIFF_ENTITY
  | low_consumption => subscript (_subentry self) CONF_LOW_CONSUMPTION_ENTITY
  | high_consumption => subscript (_subentry self) CONF_HIGH_CONSUMPTION_ENTITY
  end.

(** The inputs each class declares in its call of the base constructor,
    in the order of [entities_to_track]. *)
Definition dependencies (cls : SensorClass) : list Input :=
  match cls with
  | TotalDailyCost => [low_tariff; high_tariff; low_consumption; high_consumption]
  | DailyLowCost => [low_tariff; low_consumption]
  | DailyHighCost => [high_tariff; high_consumption]
  | TotalDailyConsumption => [low_consumption; high_consumption]
  end.

(** The combination rule of each metric as the specification tabulates it,
    over the numeric values of the inputs. *)
Definition combine (cls : SensorClass) (v : Input -> float) : float :=
  match cls with
  | DailyLowCost => float_mul (v low_tariff) (v low_consumption)
  | DailyHighCost => float_mul (v high_tariff) (v high_consumption)
  | TotalDailyCost =>
      float_add (float_mul (v low_tariff) (v low_consumption))
                (float_mul (v high_tariff) (v high_consumption))
  | TotalDailyConsumption => float_add (v low_consumption) (v high_consumption)
  end.

(** ** controller.py *)

Module Controller.

Record t : Set := {
  low_tariff_entity_id : string;
  high_tariff_entity_id : string
}.

(** [Controller.__init__]: the object and the entity ids it subscribes to. *)
Definition __init__ (low_tariff_entity_id high_tariff_entity_id : string)
  : t * list string :=
  ({| low_tariff_entity_id := low_tariff_entity_id;
      high_tariff_entity_id := high_tariff_entity_id |},
   [low_tariff_entity_id; high_tariff_entity_id]).

(** The class body binds [low_tariff_state = None] and later rebinds the
    same name to a property, so the attribute of an instance is the
    property.  Its getter evaluates [self.low_tariff_state], which is the
    getter again.  [frames] is the number of stack frames left before the
    interpreter's recursion limit, at which it raises [RecursionError]. *)
Fixpoint low_tariff_state (frames : nat) (self : t) : py (option HA.State) :=
  match frames with
  | O => Raise RecursionError
  | S frames' => low_tariff_state frames' self
  end.

Fixpoint high_tariff_state (frames : nat) (self : t) : py (option HA.State) :=
  match frames with
  | O => Raise RecursionError
  | S frames' => high_tariff_state frames' self
  end.

End Controller.

(** ** sensor.py: platform setup *)

(** [homeassistant.config_entries.ConfigSubentry], as far as the setup
    reads it. *)
Record ConfigSubentry : Type := {
  subentry_type : string;
  subentry_id : string;
  data : gmap string string
}.

(** The calls the setup makes on the host, in order: every constructor
    registers its change listener, and the entities of a device are handed
    over in one call. *)
Inductive HostCall : Type :=
| async_track_state_change_event (entities_to_track : list string)
| async_add_entities (entities : list EnergyDeviceMonitorSensor)
    (update_before_add : bool) (config_subentry_id : string).

(** A computation that calls the host: its result or exception, and the
    calls made until then. *)
Definition Setup (A : Type) : Type := py A * list HostCall.

Definition setup_bind {A B : Type} (c : Setup A) (k : A -> Setup B) : Setup B :=
  match c with
  | (Return a, calls) => (fst (k a), (calls ++ snd (k a))%list)
  | (Raise e, calls) => (Raise e, calls)
  end.

(** [cls(hass, entry, subentry)] with its call of the change tracker; a
    constructor that raises has not reached that call. *)
Definition construct (cls : SensorClass) (CONF_DEVICE_FRIENDLY_NAME : string)
    (entry : gmap string string) (subentry : ConfigSubentry)
  : Setup EnergyDeviceMonitorSensor :=
  match new cls CONF_DEVICE_FRIENDLY_NAME entry (data subentry) with
  | Return (self, entities_to_track) =>
      (Return self, [async_track_state_change_event entities_to_track])
  | Raise e => (Raise e, [])
  end.

(** [async_setup_entry] of sensor.py; [subentries] is
    [entry.subentries.values()], in the dictionary's order. *)
Fixpoint async_setup_entry (CONF_DEVICE_FRIENDLY_NAME : string)
    (entry : gmap string string) (subentries : list ConfigSubentry)
  : Setup unit :=
  match subentries with
  | [] => (Return tt, [])
  | subentry :: rest =>
      if negb (String.eqb (subentry_type subentry) "device")
      then async_setup_entry CONF_DEVICE_FRIENDLY_NAME entry rest
      else
        setup_bind
          (construct DailyLowCost CONF_DEVICE_FRIENDLY_NAME entry subentry)
          (fun e1 =>
        setup_bind
          (construct DailyHighCost CONF_DEVICE_FRIENDLY_NAME entry subentry)
          (fun e2 =>
        setup_bind
          (construct TotalDailyCost CONF_DEVICE_FRIENDLY_NAME entry subentry)
          (fun e3 =>
        setup_bind
          (construct TotalDailyConsumption CONF_DEVICE_FRIENDLY_NAME entry
             subentry)
          (fun e4 =>
        setup_bind
          (Return tt,
           [async_add_entities [e1; e2; e3; e4] true (subentry_id subentry)])
          (fun _ =>
        async_setup_entry CONF_DEVICE_FRIENDLY_NAME entry rest)))))
  end.

(** ** config_flow.py *)

(** What a flow step returns to the host. *)
Inductive FlowResult : Type :=
| async_show_form (step_id : string) (errors : gmap string string)
| async_create_entry (title : string) (entry_data : gmap string string).

(** How a flow step ends: it returns, it raises, or a host helper raises
    [AbortFlow] with a reason. *)
Inductive StepOutcome : Type :=
| Returned (result : FlowResult)
| Raised (e : exn)
| AbortFlow (reason : string).

(** [validate_input] *)
Definition validate_input (user_data : gmap string string)
  : py (gmap string string) :=
  (do low <- subscript user_data CONF_LOW_TARIFF_ENTITY ;
   do high <- subscript user_data CONF_HIGH_TARIFF_ENTITY ;
   Return (<["title" := "Energy Device Monitor"]>
             (<["low_tariff_entity" := low]>
                (<["high_tariff_entity" := high]> ∅))))%py.

(** [validate_device_input]; [CONF_DEVICE_KEY] is imported from const.py,
    which does not define it: the key is a parameter. *)
Definition validate_device_input (CONF_DEVICE_KEY : string)
    (user_data : gmap string string) : py (gmap string string) :=
  (do device_name <- subscript user_data CONF_DEVICE_NAME ;
   do device_key <- subscript user_data CONF_DEVICE_KEY ;
   do low <- subscript user_data CONF_LOW_CONSUMPTION_ENTITY ;
   do high <- subscript user_data CONF_HIGH_CONSUMPTION_ENTITY ;
   Return (<["device_name" := device_name]>
             (<["device_key" := device_key]>
                (<["low_consumption_entity" := low]>
                   (<["high_consumption_entity" := high]> ∅)))))%py.

Module ConfigFlow.

Definition VERSION : Z := 1.

(** [ConfigFlow.async_step_user].  The result is paired with the flow's
    unique id after the step ([None] while unset).
    [unique_id_configured] is the host's answer to
    [_abort_if_unique_id_configured]: whether a config entry with that
    unique id exists; the helper then raises [AbortFlow] with the reason
    [already_configured]. *)
Definition async_step_user (unique_id_configured : string -> bool)
    (user_input : option (gmap string string))
  : StepOutcome * option string :=
  match user_input with
  | Some input =>
      match validate_input input with
      | Raise e => (Raised e, None)
      | Return info =>
          if unique_id_configured DOMAIN
          then (AbortFlow "already_configured", Some DOMAIN)
          else
            match subscript info "title" with
            | Raise e => (Raised e, Some DOMAIN)
            | Return title =>
                (Returned (async_create_entry title input), Some DOMAIN)
            end
      end
  | None => (Returned (async_show_form "user" ∅), None)
  end.

(** [async_get_supported_subentry_types]: the subentry types and the
    class handling each. *)
Definition async_get_supported_subentry_types : list (string * string) :=
  [("device", "DeviceSubentryFlowHandler")].

End ConfigFlow.

Module DeviceSubentryFlowHandler.

Definition VERSION : Z := 1.

(** [DeviceSubentryFlowHandler.async_step_user] *)
Definition async_step_user (CONF_DEVICE_KEY : string)
    (user_input : option (gmap string string)) : StepOutcome :=
  match user_input with
  | Some input =>
      match validate_device_input CONF_DEVICE_KEY input with
      | Raise e => Raised e
      | Return info =>
          match subscript info "device_name" with
          | Raise e => Raised e
          | Return title => Returned (async_create_entry title input)
          end
      end
  | None => Returned (async_show_form "user" ∅)
  end.

End DeviceSubentryFlowHandler.

(** ** A parser instance and sample values

    [literal_float] agrees with [float] on the literals below and rejects
    every other string; among the rejected ones are the empty string, the
    sentinel and non-numeric text, which [float] rejects too. *)

Definition f0_20 : float := float_div (float_of_Z 2) (float_of_Z 10).
Definition f0_30 : float := float_div (float_of_Z 3) (float_of_Z 10).
Definition f10_0 : float := float_of_Z 10.
Definition f5_0 : float := float_of_Z 5.

Definition literal_float (s : string) : option float :=
  if String.eqb s "0.20" then Some f0_20
  else if String.eqb s "0.30" then Some f0_30
  else if String.eqb s "10.0" then Some f10_0
  else if String.eqb s "5.0" then Some f5_0
  else None.

(** ** Vocabulary of the statements *)

(** The snapshot [EnergyDeviceEntityState(available=False)]. *)
Definition unavailable_state : EnergyDeviceEntityState :=
  {| available := false; state := None |}.

(** The value [_async_update_entity_state] returns (it never raises, see
    [_async_update_entity_state_total]). *)
Definition entity_snapshot (float_of_str : string -> option float)
    (hass_states : States) (entity_id : string) : EnergyDeviceEntityState :=
  match _async_update_entity_state float_of_str hass_states entity_id with
  | Return st => st
  | Raise _ => unavailable_state
  end.

Definition Input_eqb (i j : Input) : bool :=
  match i, j with
  | low_tariff, low_tariff
  | high_tariff, high_tariff
  | low_consumption, low_consumption
  | high_consumption, high_consumption => true
  | _, _ => false
  end.

Definition class_includes (cls : SensorClass) (i : Input) : bool :=
  existsb (Input_eqb i) (dependencies cls).

(** An object as its class constructor leaves it, whatever its snapshot
    attributes hold: the flags are those of the class, and the configuration
    has an entity id for every declared input. *)
Definition wired (self : EnergyDeviceMonitorSensor) : Prop :=
  (forall i, included i self = class_includes (__class__ self) i)
  /\ (forall i, class_includes (__class__ self) i = true ->
                exists entity_id, entity_id_of i self = Return entity_id).

(** Two objects that differ at most in their snapshot attributes. *)
Definition same_wiring (a b : EnergyDeviceMonitorSensor) : Prop :=
  __class__ a = __class__ b
  /\ (forall i, included i a = included i b)
  /\ (forall i, entity_id_of i a = entity_id_of i b).

(** The object after [async_update]. *)
Definition refreshed (float_of_str : string -> option float)
    (hass_states : States) (self : EnergyDeviceMonitorSensor)
  : EnergyDeviceMonitorSensor :=
  snd (async_update float_of_str hass_states self).

(** The snapshots of an object, read as a table. *)
Definition snapshots_of_sensor (self : EnergyDeviceMonitorSensor) (i : Input)
  : EnergyDeviceEntityState :=
  match snapshot i self with
  | Some st => st
  | None => unavailable_state
  end.

(** The host reading both properties of an entity, one after the other;
    an exception in one read does not prevent the other. *)
Definition read_both (self : EnergyDeviceMonitorSensor)
  : (py bool * py float) * EnergyDeviceMonitorSensor :=
  let r1 := sensor_available self in
  let r2 := sensor_native_value (snd r1) in
  ((fst r1, fst r2), snd r2).

(** ** Sample configuration, host states and clock *)

Definition sample_friendly_key : string := "conf_device_friendly_name".

Definition sample_entry : gmap string string :=
  <[CONF_LOW_TARIFF_ENTITY := "sensor.low_price"]>
    (<[CONF_HIGH_TARIFF_ENTITY := "sensor.high_price"]> ∅).

Definition sample_subentry : gmap string string :=
  <[CONF_DEVICE_NAME := "boiler"]>
    (<[sample_friendly_key := "Boiler"]>
       (<[CONF_LOW_CONSUMPTION_ENTITY := "sensor.low_kwh"]>
          (<[CONF_HIGH_CONSUMPTION_ENTITY := "sensor.high_kwh"]> ∅))).

Definition raw_state (raw : string) : HA.State := {| HA.state := Some raw |}.

(** Prices 0.20 and 0.30, consumptions 10.0 and 5.0. *)
Definition sample_hass : States :=
  <["sensor.low_price" := raw_state "0.20"]>
    (<["sensor.high_price" := raw_state "0.30"]>
       (<["sensor.low_kwh" := raw_state "10.0"]>
          (<["sensor.high_kwh" := raw_state "5.0"]> ∅))).

Definition sample_values (i : Input) : float :=
  match i with
  | low_tariff => f0_20
  | high_tariff => f0_30
  | low_consumption => f10_0
  | high_consumption => f5_0
  end.

(** The low consumption source reports the sentinel. *)
Definition sample_hass_low_unavailable : States :=
  <["sensor.low_kwh" := raw_state HA.STATE_UNAVAILABLE]> sample_hass.

(** The object [cls(hass, entry, subentry)] builds from the sample
    configuration (see [sample_new_eq]). *)
Definition sample_attrs (cls : SensorClass) : SensorAttrs :=
  match cls with
  | TotalDailyCost =>
      {| _attr_unique_id := "boiler_total_daily_cost_sensor";
         _attr_device_class := MONETARY;
         _attr_native_unit_of_measurement := "EUR";
         _attr_suggested_display_precision := 2;
         _attr_state_class := Some TOTAL |}
  | DailyLowCost =>
      {| _attr_unique_id := "boiler_daily_low_cost_sensor";
         _attr_device_class := MONETARY;
         _attr_native_unit_of_measurement := "EUR";
         _attr_suggested_display_precision := 2;
         _attr_state_class := None |}
  | DailyHighCost =>
      {| _attr_unique_id := "boiler_sensor_daily_high_cost";
         _attr_device_class := MONETARY;
         _attr_native_unit_of_measurement := "EUR";
         _attr_suggested_display_precision := 2;
         _attr_state_class := None |}
  | TotalDailyConsumption =>
      {| _attr_unique_id := "boiler_total_daily_consumption_sensor";
         _attr_device_class := ENERGY;
         _attr_native_unit_of_measurement := "kWh";
         _attr_suggested_display_precision := 3;
         _attr_state_class := Some TOTAL_INCREASING |}
  end.

Definition sample_new (cls : SensorClass) : EnergyDeviceMonitorSensor :=
  {| __class__ := cls; _entry := sample_entry; _subentry := sample_subentry;
     _device_name := "boiler"; _device_friendly_name := "Boiler";
     _include_low_consumption := class_includes cls low_consumption;
     _include_high_consumption := class_includes cls high_consumption;
     _include_low_tariff := class_includes cls low_tariff;
     _include_high_tariff := class_includes cls high_tariff;
     _attrs := Some (sample_attrs cls);
     low_tariff_state := None; high_tariff_state := None;
     low_consumption_state := None; high_consumption_state := None |}.

(** The sample object after its first update from a host. *)
Definition sample_sensor (cls : SensorClass) (hass_states : States)
  : EnergyDeviceMonitorSensor :=
  refreshed literal_float hass_states (sample_new cls).

(** A zone database with one key, and a clock reading. *)
Definition sample_ZoneInfo (key : string) : py string :=
  if String.eqb key "Europe/Amsterdam" then Return key
  else Raise ZoneInfoNotFoundError.

Definition sample_now (tz : string) : datetime string :=
  {| dt_date := {| year := 2026; month := 11; day := 3 |};
     dt_time := {| hour := 14; minute := 30; second := 5; microsecond := 123 |};
     tzinfo := Some tz |}.

Definition sample_controller : Controller.t :=
  fst (Controller.__init__ "sensor.low_price" "sensor.high_price").

(** ** Vocabulary of the further statements *)

(** The position of an input in the order in which [async_update] and the
    constructor treat the four inputs. *)
Definition rank (i : Input) : nat :=
  match i with
  | low_tariff => 0
  | high_tariff => 1
  | low_consumption => 2
  | high_consumption => 3
  end.

(** The configured entity id of an input: the tariff sources come from the
    entry's data, the consumption sources from the subentry's. *)
Definition config_value (i : Input) (entry subentry : gmap string string)
  : option string :=
  match i with
  | low_tariff => entry !! CONF_LOW_TARIFF_ENTITY
  | high_tariff => entry !! CONF_HIGH_TARIFF_ENTITY
  | low_consumption => subentry !! CONF_LOW_CONSUMPTION_ENTITY
  | high_consumption => subentry !! CONF_HIGH_CONSUMPTION_ENTITY
  end.

(** The object after one refresh per host state of a history, oldest
    first. *)
Definition refreshes (float_of_str : string -> option float)
    (history : list States) (self : EnergyDeviceMonitorSensor)
  : EnergyDeviceMonitorSensor :=
  fold_left (fun s hass_states => refreshed float_of_str hass_states s)
    history self.

(** The sample entry without its high tariff source. *)
Definition sample_entry_no_high : gmap string string :=
  delete CONF_HIGH_TARIFF_ENTITY sample_entry.

(** A total cost object whose configuration lost the high tariff source
    after construction, with snapshots from an earlier refresh. *)
Definition sample_broken : EnergyDeviceMonitorSensor :=
  {| __class__ := TotalDailyCost; _entry := sample_entry_no_high;
     _subentry := sample_subentry;
     _device_name := "boiler"; _device_friendly_name := "Boiler";
     _include_low_consumption := true; _include_high_consumption := true;
     _include_low_tariff := true; _include_high_tariff := true;
     _attrs := Some (sample_attrs TotalDailyCost);
     low_tariff_state := Some unavailable_state;
     high_tariff_state := Some unavailable_state;
     low_consumption_state := Some unavailable_state;
     high_consumption_state := Some unavailable_state |}.

(** The subentries the platform setup builds entities for. *)
Definition is_device (subentry : ConfigSubentry) : bool :=
  String.eqb (subentry_type subentry) "device".

(** The part of [async_setup_entry] that one device subentry runs: four
    constructors, then one call of [async_add_entities]. *)
Definition setup_device (CONF_DEVICE_FRIENDLY_NAME : string)
    (entry : gmap string string) (subentry : ConfigSubentry) : Setup unit :=
  setup_bind (construct DailyLowCost CONF_DEVICE_FRIENDLY_NAME entry subentry)
    (fun e1 =>
  setup_bind (construct DailyHighCost CONF_DEVICE_FRIENDLY_NAME entry subentry)
    (fun e2 =>
  setup_bind (construct TotalDailyCost CONF_DEVICE_FRIENDLY_NAME entry subentry)
    (fun e3 =>
  setup_bind
    (construct TotalDailyConsumption CONF_DEVICE_FRIENDLY_NAME entry subentry)
    (fun e4 =>
  (Return tt,
   [async_add_entities [e1; e2; e3; e4] true (subentry_id subentry)]))))).

(** The calls of [async_add_entities] among the host calls, each described
    by its subentry id, the classes of its entities and its
    [update_before_add]. *)
Definition added (calls : list HostCall)
  : list (string * list SensorClass * bool) :=
  flat_map
    (fun c =>
       match c with
       | async_add_entities entities update_before_add config_subentry_id =>
           [(config_subentry_id, map __class__ entities, update_before_add)]
       | async_track_state_change_event _ => []
       end)
    calls.

(** The entities handed to the host. *)
Definition added_entities (calls : list HostCall)
  : list EnergyDeviceMonitorSensor :=
  flat_map
    (fun c =>
       match c with
       | async_add_entities entities _ _ => entities
       | async_track_state_change_event _ => []
       end)
    calls.

(** The call of [async_add_entities] the setup makes for a device. *)
Definition describe (subentry : ConfigSubentry)
  : string * list SensorClass * bool :=
  (subentry_id subentry,
   [DailyLowCost; DailyHighCost; TotalDailyCost; TotalDailyConsumption], true).

(** The keys the four constructors of a device read. *)
Definition device_keys_present (CONF_DEVICE_FRIENDLY_NAME : string)
    (entry subentry : gmap string string) : Prop :=
  is_Some (subentry !! CONF_DEVICE_NAME)
  /\ is_Some (subentry !! CONF_DEVICE_FRIENDLY_NAME)
  /\ forall i, is_Some (config_value i entry subentry).

Definition sample_device : ConfigSubentry :=
  {| subentry_type := "device"; subentry_id := "01-boiler";
     data := sample_subentry |}.

Definition sample_note : ConfigSubentry :=
  {| subentry_type := "note"; subentry_id := "00-note"; data := ∅ |}.

(** A device subentry without the low consumption source. *)
Definition sample_device_incomplete : ConfigSubentry :=
  {| subentry_type := "device"; subentry_id := "02-heater";
     data := delete CONF_LOW_CONSUMPTION_ENTITY sample_subentry |}.

Definition sample_device_key : string := "conf_device_key".

(** What a user submits to the device subentry flow when the form asks for
    name, key and the two consumption sources. *)
Definition sample_device_input : gmap string string :=
  <[CONF_DEVICE_NAME := "boiler"]>
    (<[sample_device_key := "Boiler"]>
       (<[CONF_LOW_CONSUMPTION_ENTITY := "sensor.low_kwh"]>
          (<[CONF_HIGH_CONSUMPTION_ENTITY := "sensor.high_kwh"]> ∅))).

(** * Properties *)

(** ** The tracker function *)

Section TrackerFacts.

Variable float_of_str : string -> option float.

Lemma _async_update_entity_state_total (hass_states : States) (entity_id : string) :
  _async_update_entity_state float_of_str hass_states entity_id
  = Return (entity_snapshot float_of_str hass_states entity_id).
Proof.
  unfold entity_snapshot, _async_update_entity_state, py_float.
  destruct (hass_states !! entity_id) as [[[raw|]]|]; simpl; try reflexivity.
  destruct (String.eqb raw HA.STATE_UNAVAILABLE); try reflexivity.
  destruct (float_of_str raw); reflexivity.
Qed.

Lemma entity_snapshot_missing (hass_states : States) (entity_id : string) :
  hass_states !! entity_id = None ->
  entity_snapshot float_of_str hass_states entity_id = unavailable_state.
Proof.
  intros H. unfold entity_snapshot, _async_update_entity_state.
  rewrite H. reflexivity.
Qed.

Lemma entity_snapshot_no_state (hass_states : States) (entity_id : string) :
  hass_states !! entity_id = Some {| HA.state := None |} ->
  entity_snapshot float_of_str hass_states entity_id = unavailable_state.
Proof.
  intros H. unfold entity_snapshot, _async_update_entity_state.
  rewrite H. reflexivity.
Qed.

Lemma entity_snapshot_sentinel (hass_states : States) (entity_id : string) :
  hass_states !! entity_id = Some {| HA.state := Some HA.STATE_UNAVAILABLE |} ->
  entity_snapshot float_of_str hass_states entity_id = unavailable_state.
Proof.
  intros H. unfold entity_snapshot, _async_update_entity_state.
  rewrite H. simpl. reflexivity.
Qed.

Lemma entity_snapshot_rejected (hass_states : States) (entity_id raw : string) :
  hass_states !! entity_id = Some {| HA.state := Some raw |} ->
  float_of_str raw = None ->
  entity_snapshot float_of_str hass_states entity_id = unavailable_state.
Proof.
  intros H Hraw. unfold entity_snapshot, _async_update_entity_state, py_float.
  rewrite H. simpl. rewrite Hraw.
  destruct (String.eqb raw HA.STATE_UNAVAILABLE); reflexivity.
Qed.

Lemma entity_snapshot_parsed (hass_states : States) (entity_id raw : string)
    (v : float) :
  hass_states !! entity_id = Some {| HA.state := Some raw |} ->
  raw <> HA.STATE_UNAVAILABLE ->
  float_of_str raw = Some v ->
  entity_snapshot float_of_str hass_states entity_id = {| available := true; state := Some v |}.
Proof.
  intros H Hne Hraw. unfold entity_snapshot, _async_update_entity_state, py_float.
  rewrite H. simpl. rewrite Hraw.
  destruct (String.eqb_spec raw HA.STATE_UNAVAILABLE) as [E|_];
    [contradiction | reflexivity].
Qed.

(** A snapshot the tracker produces carries a number exactly when it is
    available. *)
Lemma entity_snapshot_shape (hass_states : States) (entity_id : string) :
  (available (entity_snapshot float_of_str hass_states entity_id) = false
   /\ state (entity_snapshot float_of_str hass_states entity_id) = None)
  \/ (available (entity_snapshot float_of_str hass_states entity_id) = true
      /\ exists v, state (entity_snapshot float_of_str hass_states entity_id) = Some v).
Proof.
  unfold entity_snapshot, _async_update_entity_state, py_float.
  destruct (hass_states !! entity_id) as [[[raw|]]|]; simpl; auto.
  destruct (String.eqb raw HA.STATE_UNAVAILABLE); simpl; auto.
  destruct (float_of_str raw); simpl; eauto.
Qed.

End TrackerFacts.

(** ** Construction and refresh *)

Lemma In_dependencies_includes (cls : SensorClass) (i : Input) :
  In i (dependencies cls) <-> class_includes cls i = true.
Proof.
  unfold class_includes. rewrite existsb_exists. split.
  - intros H. exists i. split; [exact H | destruct i; reflexivity].
  - intros [j [Hj E]]. destruct i, j; simpl in E; try discriminate; exact Hj.
Qed.

Ltac case_lookups H :=
  repeat match type of H with
    | context [ ?m !! ?k ] =>
        let E := fresh "Elk" in
        destruct (m !! k) eqn:E; simpl in H; try discriminate H
    end.

Ltac run_new H :=
  unfold new, TotalDailyCostSensor.__init__, DailyLowCostSensor.__init__,
    DailyHighCostSensor.__init__, TotalDailyConsumptionSensor.__init__,
    base__init__, py_bind, subscript in H;
  case_lookups H; injection H as <- <-.

(** What a constructor establishes: the wiring of its class, and no
    snapshot attribute. *)
Lemma new_wired (cls : SensorClass) (CONF_DEVICE_FRIENDLY_NAME : string)
    (entry subentry : gmap string string)
    (self : EnergyDeviceMonitorSensor) (tracked : list string) :
  new cls CONF_DEVICE_FRIENDLY_NAME entry subentry = Return (self, tracked) ->
  wired self /\ __class__ self = cls /\ (forall i, snapshot i self = None).
Proof.
  intros H. destruct cls; run_new H; simpl;
    (split; [split | split; [reflexivity | intros []; reflexivity]]);
    try (intros []; reflexivity);
    intros []; simpl; unfold subscript; intros Hi; try discriminate;
    match goal with
    | E : ?m !! ?k = Some ?v |- exists _, match ?m !! ?k with _ => _ end = _ =>
        exists v; rewrite E; reflexivity
    end.
Qed.

(** The list handed to the host's change tracker holds the entity ids of
    the declared inputs, in order. *)
Lemma new_tracks (cls : SensorClass) (CONF_DEVICE_FRIENDLY_NAME : string)
    (entry subentry : gmap string string)
    (self : EnergyDeviceMonitorSensor) (tracked : list string) :
  new cls CONF_DEVICE_FRIENDLY_NAME entry subentry = Return (self, tracked) ->
  map (fun i => entity_id_of i self) (dependencies cls) = map Return tracked.
Proof.
  intros H. destruct cls; run_new H; simpl; unfold subscript;
    repeat match goal with E : _ !! _ = Some _ |- _ => rewrite E; clear E end;
    reflexivity.
Qed.

Lemma wired_same_wiring (a b : EnergyDeviceMonitorSensor) :
  same_wiring a b -> wired a -> wired b.
Proof.
  intros (Hc & Hi & He) [Hinc Heid]. split.
  - intros i. rewrite <- Hc, <- Hi. apply Hinc.
  - intros i. rewrite <- Hc, <- He. apply Heid.
Qed.

Ltac wiring_of Hinc Heid :=
  pose proof (Hinc low_tariff) as Hlt; pose proof (Hinc high_tariff) as Hht;
  pose proof (Hinc low_consumption) as Hlc;
  pose proof (Hinc high_consumption) as Hhc;
  pose proof (Heid low_tariff) as Elt; pose proof (Heid high_tariff) as Eht;
  pose proof (Heid low_consumption) as Elc;
  pose proof (Heid high_consumption) as Ehc;
  unfold class_includes in Hlt, Hht, Hlc, Hhc, Elt, Eht, Elc, Ehc;
  simpl in Hlt, Hht, Hlc, Hhc, Elt, Eht, Elc, Ehc; subst;
  clear Hinc Heid;
  repeat match goal with
    | H : true = true -> exists _, subscript ?m ?k = Return _ |- _ =>
        let e := fresh "entity_id" in
        let E := fresh "Eid" in
        destruct (H eq_refl) as [e E]; clear H;
        unfold subscript in E;
        destruct (m !! k) eqn:?; [injection E as -> | discriminate E]
    | H : false = true -> _ |- _ => clear H
    end.

Section RefreshFacts.

Variable float_of_str : string -> option float.
Variable hass_states : States.

(** With the wiring of a constructor, a refresh raises nothing, replaces
    the snapshot of every declared input by what the host holds for its
    entity id, and touches nothing else. *)
Lemma async_update_wired (self : EnergyDeviceMonitorSensor) :
  wired self ->
  async_update float_of_str hass_states self
  = (Return tt, refreshed float_of_str hass_states self)
  /\ same_wiring self (refreshed float_of_str hass_states self)
  /\ (forall i,
        class_includes (__class__ self) i = true ->
        exists entity_id,
          entity_id_of i self = Return entity_id
          /\ snapshot i (refreshed float_of_str hass_states self)
             = Some (entity_snapshot float_of_str hass_states entity_id))
  /\ (forall i,
        class_includes (__class__ self) i = false ->
        snapshot i (refreshed float_of_str hass_states self) = snapshot i self).
Proof.
  intros [Hinc Heid]. destruct self as [cls e s dn dfn ilc ihc ilt iht at_ lt ht lc hc].
  simpl in Hinc, Heid.
  destruct cls; wiring_of Hinc Heid;
    unfold refreshed, async_update, bind, field, lift, assign, ret, subscript;
    simpl;
    repeat (progress
              (repeat match goal with
                 | E : _ !! _ = Some _ |- _ => rewrite E
                 end;
               rewrite ?_async_update_entity_state_total; simpl)).
  all: split; [reflexivity|].
  all: split; [split; [reflexivity | split; intros []; reflexivity]|].
  all: split; intros []; simpl; intros Hi; try discriminate Hi;
    try reflexivity; unfold subscript;
    repeat match goal with E : _ !! _ = Some _ |- _ => rewrite E; clear E end;
    eexists; split; reflexivity.
Qed.

End RefreshFacts.

(** ** Availability and value of a metric *)

Ltac snapshots_of H :=
  try (pose proof (H low_tariff ltac:(simpl; tauto)) as Hlt);
  try (pose proof (H high_tariff ltac:(simpl; tauto)) as Hht);
  try (pose proof (H low_consumption ltac:(simpl; tauto)) as Hlc);
  try (pose proof (H high_consumption ltac:(simpl; tauto)) as Hhc);
  simpl in *; subst.

Ltac run_property :=
  unfold sensor_available, sensor_native_value,
    TotalDailyCostSensor.available, DailyLowCostSensor.available,
    DailyHighCostSensor.available, TotalDailyConsumptionSensor.available,
    TotalDailyCostSensor.native_value, DailyLowCostSensor.native_value,
    DailyHighCostSensor.native_value, TotalDailyConsumptionSensor.native_value,
    py_and, attr_available, attr_state, bind, getattr, lift, ret;
  simpl.

Lemma sensor_available_snapshots (self : EnergyDeviceMonitorSensor)
    (st : Input -> EnergyDeviceEntityState) :
  (forall i, In i (dependencies (__class__ self)) -> snapshot i self = Some (st i)) ->
  sensor_available self
  = (Return (forallb (fun i => available (st i)) (dependencies (__class__ self))),
     self).
Proof.
  intros H.
  destruct self as [cls e s dn dfn ilc ihc ilt iht at_ lt ht lc hc].
  destruct cls; snapshots_of H; run_property;
    repeat match goal with
      | |- context [ available (st ?i) ] => destruct (available (st i)); simpl
      end;
    reflexivity.
Qed.

(** C1.  For every metric and every state of its dependency snapshots, the
    [available] property returns the conjunction of the dependencies'
    [available] flags: false as soon as one dependency is unavailable,
    whatever the others hold, and true when all are available. *)
Theorem available_is_conjunction (self : EnergyDeviceMonitorSensor)
    (st : Input -> EnergyDeviceEntityState) :
  (forall i, In i (dependencies (__class__ self)) -> snapshot i self = Some (st i)) ->
  sensor_available self
  = (Return (forallb (fun i => available (st i)) (dependencies (__class__ self))),
     self)
  /\ ((exists i, In i (dependencies (__class__ self)) /\ available (st i) = false) ->
      sensor_available self = (Return false, self))
  /\ ((forall i, In i (dependencies (__class__ self)) -> available (st i) = true) ->
      sensor_available self = (Return true, self)).
Proof.
  intros H. rewrite (sensor_available_snapshots self st H).
  split; [reflexivity | split].
  - intros (i & Hi & Hfalse).
    replace (forallb (fun i => available (st i)) (dependencies (__class__ self)))
      with false; [reflexivity|].
    symmetry. apply not_true_is_false. intros Hall.
    rewrite forallb_forall in Hall. specialize (Hall i Hi). simpl in Hall.
    congruence.
  - intros Hall.
    replace (forallb (fun i => available (st i)) (dependencies (__class__ self)))
      with true; [reflexivity|].
    symmetry. apply forallb_forall. exact Hall.
Qed.

Lemma available_is_conjunction_witness :
  let self := sample_sensor TotalDailyConsumption sample_hass_low_unavailable in
  (forall i, In i (dependencies (__class__ self)) ->
             snapshot i self = Some (snapshots_of_sensor self i))
  /\ sensor_available self = (Return false, self).
Proof.
  assert (H : forall i,
             In i (dependencies
                     (__class__ (sample_sensor TotalDailyConsumption
                                   sample_hass_low_unavailable))) ->
             snapshot i (sample_sensor TotalDailyConsumption
                           sample_hass_low_unavailable)
             = Some (snapshots_of_sensor
                       (sample_sensor TotalDailyConsumption
                          sample_hass_low_unavailable) i)).
  { intros i [<-|[<-|[]]]; vm_compute; reflexivity. }
  split; [exact H|].
  apply (proj1 (proj2 (available_is_conjunction _ _ H))).
  exists low_consumption. split; [left; reflexivity | vm_compute; reflexivity].
Defined.

Lemma sensor_native_value_snapshots (self : EnergyDeviceMonitorSensor)
    (v : Input -> float) :
  (forall i, In i (dependencies (__class__ self)) ->
             snapshot i self = Some {| available := true; state := Some (v i) |}) ->
  sensor_native_value self = (Return (combine (__class__ self) v), self).
Proof.
  intros H.
  destruct self as [cls e s dn dfn ilc ihc ilt iht at_ lt ht lc hc].
  destruct cls; snapshots_of H; run_property; reflexivity.
Qed.

(** C2.  When every dependency of a metric is available with a number, the
    [native_value] property returns the metric's combination of these
    numbers: price times consumption for the two tariff costs, the sum of
    the two products for the total cost, the sum of the two consumptions
    for the total consumption. *)
Theorem native_value_is_combine (self : EnergyDeviceMonitorSensor)
    (v : Input -> float) :
  (forall i, In i (dependencies (__class__ self)) ->
             snapshot i self = Some {| available := true; state := Some (v i) |}) ->
  sensor_native_value self = (Return (combine (__class__ self) v), self)
  /\ combine DailyLowCost v = float_mul (v low_tariff) (v low_consumption)
  /\ combine DailyHighCost v = float_mul (v high_tariff) (v high_consumption)
  /\ combine TotalDailyCost v
     = float_add (float_mul (v low_tariff) (v low_consumption))
                 (float_mul (v high_tariff) (v high_consumption))
  /\ combine TotalDailyConsumption v
     = float_add (v low_consumption) (v high_consumption).
Proof.
  intros H. split; [apply sensor_native_value_snapshots; exact H|].
  repeat split.
Qed.

Lemma native_value_is_combine_witness :
  let self := sample_sensor TotalDailyCost sample_hass in
  (forall i, In i (dependencies (__class__ self)) ->
             snapshot i self
             = Some {| available := true; state := Some (sample_values i) |})
  /\ sensor_native_value self
     = (Return (float_add (float_mul f0_20 f10_0) (float_mul f0_30 f5_0)), self).
Proof.
  assert (H : forall i,
             In i (dependencies
                     (__class__ (sample_sensor TotalDailyCost sample_hass))) ->
             snapshot i (sample_sensor TotalDailyCost sample_hass)
             = Some {| available := true; state := Some (sample_values i) |}).
  { intros i [<-|[<-|[<-|[<-|[]]]]]; vm_compute; reflexivity. }
  split; [exact H|].
  exact (proj1 (native_value_is_combine _ _ H)).
Defined.

Lemma sensor_available_false (self : EnergyDeviceMonitorSensor)
    (st : Input -> EnergyDeviceEntityState) :
  (forall i, In i (dependencies (__class__ self)) -> snapshot i self = Some (st i)) ->
  (exists i, In i (dependencies (__class__ self)) /\ available (st i) = false) ->
  sensor_available self = (Return false, self).
Proof.
  intros H (i & Hi & Hfalse). rewrite (sensor_available_snapshots self st H).
  f_equal. f_equal. apply not_true_is_false. intros Hall.
  rewrite forallb_forall in Hall. specialize (Hall i Hi). simpl in Hall.
  congruence.
Qed.

(** Arithmetic on a snapshot without a number raises: when the unavailable
    snapshots hold [None], as those of the tracker do, an unavailable
    dependency makes [native_value] raise [TypeError]. *)
Lemma sensor_native_value_unavailable (self : EnergyDeviceMonitorSensor)
    (st : Input -> EnergyDeviceEntityState) :
  (forall i, In i (dependencies (__class__ self)) -> snapshot i self = Some (st i)) ->
  (forall i, In i (dependencies (__class__ self)) ->
             available (st i) = false -> state (st i) = None) ->
  (exists i, In i (dependencies (__class__ self)) /\ available (st i) = false) ->
  sensor_native_value self = (Raise TypeError, self).
Proof.
  intros H Hshape (i & Hi & Hfalse).
  pose proof (Hshape i Hi Hfalse) as Hnone. clear Hshape Hfalse.
  destruct self as [cls e s dn dfn ilc ihc ilt iht at_ lt ht lc hc].
  destruct cls; snapshots_of H; run_property;
    repeat (destruct Hi as [<-|Hi]; [|try contradiction]);
    rewrite ?Hnone;
    repeat match goal with
      | |- context [ state (st ?j) ] => destruct (state (st j)); simpl
      end;
    reflexivity.
Qed.

Section RefreshedFacts.

Variable float_of_str : string -> option float.
Variable hass_states : States.

Lemma refreshed_class (self : EnergyDeviceMonitorSensor) :
  wired self ->
  __class__ (refreshed float_of_str hass_states self) = __class__ self.
Proof.
  intros Hw.
  destruct (async_update_wired float_of_str hass_states self Hw)
    as (_ & (Hc & _) & _).
  symmetry. exact Hc.
Qed.

Lemma refreshed_snapshot (self : EnergyDeviceMonitorSensor) (i : Input)
    (entity_id : string) :
  wired self ->
  In i (dependencies (__class__ self)) ->
  entity_id_of i self = Return entity_id ->
  snapshot i (refreshed float_of_str hass_states self)
  = Some (entity_snapshot float_of_str hass_states entity_id).
Proof.
  intros Hw Hi Hid.
  destruct (async_update_wired float_of_str hass_states self Hw)
    as (_ & _ & Hinc & _).
  apply In_dependencies_includes in Hi.
  destruct (Hinc i Hi) as (e' & He' & Hs).
  rewrite Hid in He'. injection He' as <-. exact Hs.
Qed.

(** After a refresh every declared input has a snapshot, and each
    snapshot has the shape the tracker gives it. *)
Lemma refreshed_table (self : EnergyDeviceMonitorSensor) :
  wired self ->
  let self' := refreshed float_of_str hass_states self in
  (forall i, In i (dependencies (__class__ self')) ->
             snapshot i self' = Some (snapshots_of_sensor self' i))
  /\ (forall i, In i (dependencies (__class__ self')) ->
                available (snapshots_of_sensor self' i) = false ->
                state (snapshots_of_sensor self' i) = None).
Proof.
  intros Hw self'. subst self'. rewrite (refreshed_class self Hw).
  destruct (async_update_wired float_of_str hass_states self Hw)
    as (_ & _ & Hinc & _).
  split; intros i Hi; apply In_dependencies_includes in Hi;
    destruct (Hinc i Hi) as (e' & _ & Hs);
    unfold snapshots_of_sensor; rewrite Hs; [reflexivity|].
  intros Hfalse.
  destruct (entity_snapshot_shape float_of_str hass_states e')
    as [[_ Hn]|[Ht _]]; [exact Hn | congruence].
Qed.

(** A declared input whose entity yields the unavailable snapshot makes
    the refreshed metric unavailable, without any exception. *)
Lemma refreshed_unavailable (self : EnergyDeviceMonitorSensor) (i : Input)
    (entity_id : string) :
  wired self ->
  In i (dependencies (__class__ self)) ->
  entity_id_of i self = Return entity_id ->
  entity_snapshot float_of_str hass_states entity_id = unavailable_state ->
  let self' := refreshed float_of_str hass_states self in
  async_update float_of_str hass_states self = (Return tt, self')
  /\ snapshot i self' = Some unavailable_state
  /\ sensor_available self' = (Return false, self').
Proof.
  intros Hw Hi Hid Hun self'. subst self'.
  pose proof (refreshed_snapshot self i entity_id Hw Hi Hid) as Hs.
  rewrite Hun in Hs.
  destruct (async_update_wired float_of_str hass_states self Hw) as (Hrun & _).
  destruct (refreshed_table self Hw) as (Htab & _).
  split; [exact Hrun | split; [exact Hs|]].
  apply (sensor_available_false _ _ Htab).
  exists i. split.
  - rewrite (refreshed_class self Hw). exact Hi.
  - unfold snapshots_of_sensor. rewrite Hs. reflexivity.
Qed.

End RefreshedFacts.

(** ** Unavailable dependencies *)

(** C3, counterexample.  The total consumption metric, refreshed from a host
    whose low consumption source reports the sentinel: the dependency is
    unavailable and [available] is false, yet [native_value] is not cut
    short.  It reads the snapshots' [state] and runs the addition, which
    raises [TypeError]; it does not return none. *)
Lemma native_value_unguarded_counterexample :
  let self := sample_sensor TotalDailyConsumption sample_hass_low_unavailable in
  In low_consumption (dependencies (__class__ self))
  /\ snapshot low_consumption self = Some unavailable_state
  /\ sensor_available self = (Return false, self)
  /\ sensor_native_value self = (Raise TypeError, self).
Proof.
  vm_compute. repeat split. left. reflexivity.
Qed.

(** C3, amended.  For every metric refreshed from the host, whenever at
    least one dependency is unavailable, [available] returns false and
    [native_value], which has no guard of its own, yields no number: an
    unavailable snapshot carries no numeric value, so the arithmetic raises
    [TypeError].  Neither read changes the object. *)
Theorem unavailable_dependency_yields_no_value
    (float_of_str : string -> option float) (hass_states : States)
    (self : EnergyDeviceMonitorSensor) :
  wired self ->
  let self' := refreshed float_of_str hass_states self in
  (exists i st, In i (dependencies (__class__ self'))
                /\ snapshot i self' = Some st /\ available st = false) ->
  sensor_available self' = (Return false, self')
  /\ sensor_native_value self' = (Raise TypeError, self').
Proof.
  intros Hw self' (i & st & Hi & Hs & Hfalse).
  destruct (refreshed_table float_of_str hass_states self Hw) as (Htab & Hshape).
  fold self' in Htab, Hshape.
  assert (Hex : exists i, In i (dependencies (__class__ self'))
                          /\ available (snapshots_of_sensor self' i) = false).
  { exists i. split; [exact Hi|]. unfold snapshots_of_sensor. rewrite Hs. exact Hfalse. }
  split.
  - apply (sensor_available_false _ _ Htab Hex).
  - apply (sensor_native_value_unavailable _ _ Htab Hshape Hex).
Qed.

Lemma sample_new_eq (cls : SensorClass) :
  exists tracked,
    new cls sample_friendly_key sample_entry sample_subentry
    = Return (sample_new cls, tracked).
Proof.
  destruct cls; eexists; vm_compute; reflexivity.
Qed.

Lemma sample_new_wired (cls : SensorClass) : wired (sample_new cls).
Proof.
  destruct (sample_new_eq cls) as [tracked H].
  exact (proj1 (new_wired _ _ _ _ _ _ H)).
Qed.

Lemma unavailable_dependency_yields_no_value_witness :
  let self := sample_sensor TotalDailyCost sample_hass_low_unavailable in
  wired (sample_new TotalDailyCost)
  /\ (exists i st, In i (dependencies (__class__ self))
                   /\ snapshot i self = Some st /\ available st = false)
  /\ sensor_available self = (Return false, self)
  /\ sensor_native_value self = (Raise TypeError, self).
Proof.
  assert (Hex : exists i st,
             In i (dependencies
                     (__class__ (sample_sensor TotalDailyCost
                                   sample_hass_low_unavailable)))
             /\ snapshot i (sample_sensor TotalDailyCost
                              sample_hass_low_unavailable) = Some st
             /\ available st = false).
  { exists low_consumption, unavailable_state.
    split; [vm_compute; tauto | split; vm_compute; reflexivity]. }
  split; [apply sample_new_wired | split; [exact Hex|]].
  exact (unavailable_dependency_yields_no_value literal_float
           sample_hass_low_unavailable (sample_new TotalDailyCost)
           (sample_new_wired TotalDailyCost) Hex).
Defined.

(** ** Reported values *)

(** C4.  [float] rejects the sentinel text.  For every raw string the host
    holds for an identifier and that [float] parses to [v] (finite or not),
    the tracker returns the snapshot with [available] true and [state]
    exactly [v], and after a refresh this is the snapshot of every declared
    input wired to that identifier. *)
Theorem report_change_parsed (float_of_str : string -> option float)
    (float_rejects_sentinel : float_of_str HA.STATE_UNAVAILABLE = None)
    (hass_states : States) (entity_id raw : string) (v : float) :
  hass_states !! entity_id = Some {| HA.state := Some raw |} ->
  float_of_str raw = Some v ->
  _async_update_entity_state float_of_str hass_states entity_id
  = Return {| available := true; state := Some v |}
  /\ (forall self i,
        wired self ->
        In i (dependencies (__class__ self)) ->
        entity_id_of i self = Return entity_id ->
        snapshot i (refreshed float_of_str hass_states self)
        = Some {| available := true; state := Some v |}).
Proof.
  intros Hget Hparse.
  assert (Hne : raw <> HA.STATE_UNAVAILABLE).
  { intros ->. rewrite float_rejects_sentinel in Hparse. discriminate. }
  pose proof (entity_snapshot_parsed float_of_str hass_states entity_id raw v
                Hget Hne Hparse) as Hsnap.
  split.
  - rewrite _async_update_entity_state_total, Hsnap. reflexivity.
  - intros self i Hw Hi Hid.
    rewrite (refreshed_snapshot float_of_str hass_states self i entity_id Hw Hi Hid).
    rewrite Hsnap. reflexivity.
Qed.

Lemma report_change_parsed_witness :
  literal_float HA.STATE_UNAVAILABLE = None
  /\ <["sensor.low_kwh" := raw_state "10.0"]> sample_hass !! "sensor.low_kwh"
     = Some {| HA.state := Some "10.0" |}
  /\ literal_float "10.0" = Some f10_0
  /\ _async_update_entity_state literal_float
       (<["sensor.low_kwh" := raw_state "10.0"]> sample_hass) "sensor.low_kwh"
     = Return {| available := true; state := Some f10_0 |}.
Proof.
  split; [reflexivity | split; [vm_compute; reflexivity | split; [reflexivity|]]].
  refine (proj1 (report_change_parsed literal_float _
                   (<["sensor.low_kwh" := raw_state "10.0"]> sample_hass)
                   "sensor.low_kwh" "10.0" f10_0 _ _));
    vm_compute; reflexivity.
Defined.

(** C5.  [float] rejects the empty text.  For every identifier whose raw
    value is absent (no state object, or a state object without a value),
    empty, the sentinel, or text that [float] rejects, the tracker returns
    the unavailable snapshot and raises nothing; a refresh of any metric
    wired to the identifier completes without exception, stores that
    snapshot, and the metric's [available] returns false. *)
Theorem report_change_unavailable (float_of_str : string -> option float)
    (float_rejects_empty : float_of_str "" = None)
    (hass_states : States) (entity_id : string) :
  hass_states !! entity_id = None
  \/ hass_states !! entity_id = Some {| HA.state := None |}
  \/ hass_states !! entity_id = Some {| HA.state := Some "" |}
  \/ hass_states !! entity_id = Some {| HA.state := Some HA.STATE_UNAVAILABLE |}
  \/ (exists raw, hass_states !! entity_id = Some {| HA.state := Some raw |}
                  /\ float_of_str raw = None) ->
  _async_update_entity_state float_of_str hass_states entity_id
  = Return {| available := false; state := None |}
  /\ (forall self i,
        wired self ->
        In i (dependencies (__class__ self)) ->
        entity_id_of i self = Return entity_id ->
        let self' := refreshed float_of_str hass_states self in
        async_update float_of_str hass_states self = (Return tt, self')
        /\ snapshot i self' = Some {| available := false; state := None |}
        /\ sensor_available self' = (Return false, self')).
Proof.
  intros Hraw.
  assert (Hsnap : entity_snapshot float_of_str hass_states entity_id
                  = unavailable_state).
  { destruct Hraw as [H|[H|[H|[H|(raw & H & Hrej)]]]].
    - apply entity_snapshot_missing; exact H.
    - apply entity_snapshot_no_state; exact H.
    - apply (entity_snapshot_rejected _ _ _ "" H float_rejects_empty).
    - apply entity_snapshot_sentinel; exact H.
    - apply (entity_snapshot_rejected _ _ _ raw H Hrej). }
  split.
  - rewrite _async_update_entity_state_total, Hsnap. reflexivity.
  - intros self i Hw Hi Hid.
    exact (refreshed_unavailable float_of_str hass_states self i entity_id
             Hw Hi Hid Hsnap).
Qed.

Lemma report_change_unavailable_witness :
  literal_float "" = None
  /\ <["sensor.high_price" := raw_state "n/a"]> sample_hass !! "sensor.high_price"
     = Some {| HA.state := Some "n/a" |}
  /\ literal_float "n/a" = None
  /\ _async_update_entity_state literal_float
       (<["sensor.high_price" := raw_state "n/a"]> sample_hass) "sensor.high_price"
     = Return {| available := false; state := None |}.
Proof.
  assert (Hget : <["sensor.high_price" := raw_state "n/a"]> sample_hass
                   !! "sensor.high_price"
                 = Some {| HA.state := Some "n/a" |}) by (vm_compute; reflexivity).
  split; [reflexivity | split; [exact Hget | split; [reflexivity|]]].
  refine (proj1 (report_change_unavailable literal_float _
                   (<["sensor.high_price" := raw_state "n/a"]> sample_hass)
                   "sensor.high_price" _)); [reflexivity|].
  right. right. right. right. exists "n/a". split; [exact Hget | reflexivity].
Defined.

(** ** Identifiers without a state, and the state before the first refresh *)

(** C6, counterexample.  An identifier the host has never heard of: the
    tracker returns the unavailable snapshot, and the metric wired to it
    reports [available] false.  Nothing is raised. *)
Lemma unknown_identifier_counterexample :
  (∅ : States) !! "sensor.low_price" = None
  /\ _async_update_entity_state literal_float ∅ "sensor.low_price"
     = Return {| available := false; state := None |}
  /\ entity_id_of low_tariff (sample_new DailyLowCost) = Return "sensor.low_price"
  /\ fst (async_update literal_float ∅ (sample_new DailyLowCost)) = Return tt
  /\ fst (sensor_available (sample_sensor DailyLowCost ∅)) = Return false.
Proof.
  vm_compute. repeat split.
Qed.

(** C6, amended.  For every identifier for which the host holds no state,
    the tracker returns the unavailable snapshot instead of failing, and
    every metric wired to the identifier reports [available] false after a
    refresh; no error is raised for an unknown identifier. *)
Theorem unknown_identifier_is_unavailable (float_of_str : string -> option float)
    (hass_states : States) (entity_id : string) :
  hass_states !! entity_id = None ->
  _async_update_entity_state float_of_str hass_states entity_id
  = Return {| available := false; state := None |}
  /\ (forall self i,
        wired self ->
        In i (dependencies (__class__ self)) ->
        entity_id_of i self = Return entity_id ->
        let self' := refreshed float_of_str hass_states self in
        async_update float_of_str hass_states self = (Return tt, self')
        /\ sensor_available self' = (Return false, self')).
Proof.
  intros Hnone.
  pose proof (entity_snapshot_missing float_of_str hass_states entity_id Hnone)
    as Hsnap.
  split.
  - rewrite _async_update_entity_state_total, Hsnap. reflexivity.
  - intros self i Hw Hi Hid self'.
    destruct (refreshed_unavailable float_of_str hass_states self i entity_id
                Hw Hi Hid Hsnap) as (Hrun & _ & Hav).
    split; assumption.
Qed.

Lemma unknown_identifier_is_unavailable_witness :
  sample_hass !! "sensor.never_registered" = None
  /\ _async_update_entity_state literal_float sample_hass "sensor.never_registered"
     = Return {| available := false; state := None |}.
Proof.
  assert (Hnone : sample_hass !! "sensor.never_registered" = None)
    by (vm_compute; reflexivity).
  split; [exact Hnone|].
  exact (proj1 (unknown_identifier_is_unavailable literal_float sample_hass
                  "sensor.never_registered" Hnone)).
Defined.

(** C7, counterexample.  The object a constructor returns has no snapshot
    attribute for its declared inputs, and reading [available] on it raises
    [AttributeError]. *)
Lemma constructor_leaves_snapshots_unset_counterexample :
  new TotalDailyConsumption sample_friendly_key sample_entry sample_subentry
  = Return (sample_new TotalDailyConsumption, ["sensor.low_kwh"; "sensor.high_kwh"])
  /\ snapshot low_consumption (sample_new TotalDailyConsumption) = None
  /\ snapshot high_consumption (sample_new TotalDailyConsumption) = None
  /\ fst (sensor_available (sample_new TotalDailyConsumption))
     = Raise AttributeError.
Proof.
  vm_compute. repeat split.
Qed.

(** C7, amended.  For every metric built by its constructor and refreshed
    once, as the platform setup requests before an entity is added, every
    declared input for which the host holds no state has a snapshot, this
    snapshot has [available] false, and the metric reports [available]
    false without failing. *)
Theorem first_refresh_unavailable (cls : SensorClass)
    (CONF_DEVICE_FRIENDLY_NAME : string) (entry subentry : gmap string string)
    (self : EnergyDeviceMonitorSensor) (tracked : list string)
    (float_of_str : string -> option float) (hass_states : States) :
  new cls CONF_DEVICE_FRIENDLY_NAME entry subentry = Return (self, tracked) ->
  forall i entity_id,
    In i (dependencies cls) ->
    entity_id_of i self = Return entity_id ->
    hass_states !! entity_id = None ->
    let self' := refreshed float_of_str hass_states self in
    async_update float_of_str hass_states self = (Return tt, self')
    /\ snapshot i self' = Some {| available := false; state := None |}
    /\ sensor_available self' = (Return false, self').
Proof.
  intros Hnew i entity_id Hi Hid Hnone.
  destruct (new_wired _ _ _ _ _ _ Hnew) as (Hw & Hc & _).
  rewrite <- Hc in Hi.
  exact (refreshed_unavailable float_of_str hass_states self i entity_id Hw Hi Hid
           (entity_snapshot_missing float_of_str hass_states entity_id Hnone)).
Qed.

Lemma first_refresh_unavailable_witness :
  new TotalDailyConsumption sample_friendly_key sample_entry sample_subentry
  = Return (sample_new TotalDailyConsumption, ["sensor.low_kwh"; "sensor.high_kwh"])
  /\ In low_consumption (dependencies TotalDailyConsumption)
  /\ entity_id_of low_consumption (sample_new TotalDailyConsumption)
     = Return "sensor.low_kwh"
  /\ (∅ : States) !! "sensor.low_kwh" = None
  /\ sensor_available (sample_sensor TotalDailyConsumption ∅)
     = (Return false, sample_sensor TotalDailyConsumption ∅).
Proof.
  assert (Hnew : new TotalDailyConsumption sample_friendly_key sample_entry
                   sample_subentry
                 = Return (sample_new TotalDailyConsumption,
                           ["sensor.low_kwh"; "sensor.high_kwh"]))
    by (vm_compute; reflexivity).
  assert (Hi : In low_consumption (dependencies TotalDailyConsumption))
    by (left; reflexivity).
  assert (Hid : entity_id_of low_consumption (sample_new TotalDailyConsumption)
                = Return "sensor.low_kwh") by (vm_compute; reflexivity).
  assert (Hnone : (∅ : States) !! "sensor.low_kwh" = None)
    by (vm_compute; reflexivity).
  repeat (split; [assumption|]).
  exact (proj2 (proj2 (first_refresh_unavailable _ _ _ _ _ _ literal_float ∅
                         Hnew low_consumption "sensor.low_kwh" Hi Hid Hnone))).
Defined.

(** ** Reads are pure *)

Lemma sensor_available_pure (self : EnergyDeviceMonitorSensor) :
  snd (sensor_available self) = self.
Proof.
  destruct self as [cls e s dn dfn ilc ihc ilt iht at_ lt ht lc hc].
  destruct cls; run_property;
    repeat match goal with
      | |- context [ match ?o with Some _ => _ | None => _ end ] =>
          destruct o as [[[] ?]|]; simpl
      end;
    reflexivity.
Qed.

Lemma sensor_native_value_pure (self : EnergyDeviceMonitorSensor) :
  snd (sensor_native_value self) = self.
Proof.
  destruct self as [cls e s dn dfn ilc ihc ilt iht at_ lt ht lc hc].
  destruct cls; run_property;
    repeat match goal with
      | |- context [ match ?o with Some _ => _ | None => _ end ] =>
          destruct o as [[? [?|]]|]; simpl
      end;
    reflexivity.
Qed.

(** A second refresh from an unchanged host repeats the first one exactly,
    also when a configuration key is missing and the refresh raises. *)
Lemma async_update_idempotent (float_of_str : string -> option float)
    (hass_states : States) (self : EnergyDeviceMonitorSensor) :
  async_update float_of_str hass_states (refreshed float_of_str hass_states self)
  = (fst (async_update float_of_str hass_states self),
     refreshed float_of_str hass_states self).
Proof.
  destruct self as [cls e s dn dfn ilc ihc ilt iht at_ lt ht lc hc].
  unfold refreshed.
  destruct ilc, ihc, ilt, iht;
    unfold async_update, bind, field, lift, assign, ret, subscript; simpl;
    repeat (match goal with
            | E : ?m !! ?k = _ |- context [ ?m !! ?k ] => rewrite E; simpl
            | |- context [ ?m !! ?k ] => destruct (m !! k) eqn:?; simpl
            end;
            rewrite ?_async_update_entity_state_total; simpl);
    reflexivity.
Qed.

(** C8.  Reading [available] and [native_value] is a pure read: the object
    comes back unchanged, so a second pair of reads returns the same pair as
    the first; and a refresh repeated from an unchanged host leaves the
    object, hence the pair, as the first refresh left them. *)
Theorem evaluate_is_pure (self : EnergyDeviceMonitorSensor) :
  snd (sensor_available self) = self
  /\ snd (sensor_native_value self) = self
  /\ snd (read_both self) = self
  /\ fst (read_both (snd (read_both self))) = fst (read_both self)
  /\ (forall float_of_str hass_states,
        let self' := refreshed float_of_str hass_states self in
        refreshed float_of_str hass_states self' = self'
        /\ read_both (refreshed float_of_str hass_states self') = read_both self').
Proof.
  assert (Hboth : snd (read_both self) = self).
  { unfold read_both. simpl.
    rewrite sensor_native_value_pure. apply sensor_available_pure. }
  split; [apply sensor_available_pure|].
  split; [apply sensor_native_value_pure|].
  split; [exact Hboth|].
  split; [rewrite Hboth; reflexivity|].
  intros float_of_str hass_states self'.
  assert (Hrep : refreshed float_of_str hass_states self' = self').
  { unfold self'. unfold refreshed at 1.
    rewrite async_update_idempotent. reflexivity. }
  split; [exact Hrep | rewrite Hrep; reflexivity].
Qed.

(** ** The reset boundary *)

(** C9, counterexample.  The total consumption metric defines no
    [last_reset]: the property it inherits returns none, not a midnight. *)
Lemma last_reset_total_consumption_counterexample :
  let self := sample_sensor TotalDailyConsumption sample_hass in
  sample_ZoneInfo "Europe/Amsterdam" = Return "Europe/Amsterdam"
  /\ sensor_last_reset sample_ZoneInfo sample_now "Europe/Amsterdam" self
     = (Return None, self).
Proof.
  vm_compute. split; reflexivity.
Qed.

(** C9, amended.  For every clock reading and every time zone the zone
    database knows, [last_reset] of the total cost metric returns 00:00:00
    of the current local date in that zone, carrying the zone; it leaves the
    object unchanged, so nothing is subtracted or rolled over.  The other
    three metrics, total consumption included, expose no boundary: their
    [last_reset] is none. *)
Theorem last_reset_is_local_midnight {TZ : Type} (ZoneInfo : string -> py TZ)
    (datetime_now : TZ -> datetime TZ) (time_zone : string) (tz : TZ)
    (self : EnergyDeviceMonitorSensor) :
  ZoneInfo time_zone = Return tz ->
  sensor_last_reset ZoneInfo datetime_now time_zone self
  = (Return
       match __class__ self with
       | TotalDailyCost =>
           Some {| dt_date := dt_date (datetime_now tz);
                   dt_time := {| hour := 0; minute := 0; second := 0;
                                 microsecond := 0 |};
                   tzinfo := Some tz |}
       | DailyLowCost | DailyHighCost | TotalDailyConsumption => None
       end,
     self).
Proof.
  intros Hz. unfold sensor_last_reset, TotalDailyCostSensor.last_reset,
    bind, lift, ret.
  destruct (__class__ self); try reflexivity.
  rewrite Hz. reflexivity.
Qed.

Lemma last_reset_is_local_midnight_witness :
  let self := sample_sensor TotalDailyCost sample_hass in
  sample_ZoneInfo "Europe/Amsterdam" = Return "Europe/Amsterdam"
  /\ sensor_last_reset sample_ZoneInfo sample_now "Europe/Amsterdam" self
     = (Return
          (Some {| dt_date := {| year := 2026; month := 11; day := 3 |};
                   dt_time := {| hour := 0; minute := 0; second := 0;
                                 microsecond := 0 |};
                   tzinfo := Some "Europe/Amsterdam" |}),
        self).
Proof.
  split; [reflexivity|].
  exact (last_reset_is_local_midnight sample_ZoneInfo sample_now
           "Europe/Amsterdam" "Europe/Amsterdam"
           (sample_sensor TotalDailyCost sample_hass) eq_refl).
Defined.

(** ** The controller's accessors *)

(** C10, as the code behaves.  Whatever stack depth is left, reading
    [low_tariff_state] or [high_tariff_state] of a controller returns no
    state: the getter calls itself until the interpreter raises
    [RecursionError]. *)
Theorem controller_tariff_state_never_returns (frames : nat) (self : Controller.t) :
  Controller.low_tariff_state frames self = Raise RecursionError
  /\ Controller.high_tariff_state frames self = Raise RecursionError.
Proof.
  induction frames as [|frames IH]; simpl; [split; reflexivity | exact IH].
Qed.

(** ** The scenarios of the specification *)

Example scenario_1_low_tariff_cost :
  read_both (sample_sensor DailyLowCost sample_hass)
  = ((Return true, Return (float_of_Z 2)), sample_sensor DailyLowCost sample_hass).
Proof. vm_compute. reflexivity. Qed.

Example scenario_2_total_cost :
  fst (read_both (sample_sensor TotalDailyCost sample_hass))
  = (Return true, Return (float_div (float_of_Z 7) (float_of_Z 2))).
Proof. vm_compute. reflexivity. Qed.

Example scenario_3_total_consumption_unavailable :
  fst (sensor_available
         (sample_sensor TotalDailyConsumption sample_hass_low_unavailable))
  = Return false.
Proof. vm_compute. reflexivity. Qed.

Example scenario_4_total_consumption :
  fst (read_both (sample_sensor TotalDailyConsumption sample_hass))
  = (Return true, Return (float_of_Z 15)).
Proof. vm_compute. reflexivity. Qed.

Example scenario_5_high_tariff_unavailable :
  fst (sensor_available
         (sample_sensor DailyHighCost
            (<["sensor.high_price" := raw_state HA.STATE_UNAVAILABLE]> sample_hass)))
  = Return false.
Proof. vm_compute. reflexivity. Qed.

Example f0_20_bits : f0_20 = S754_finite false 7205759403792794 (-55).
Proof. vm_compute. reflexivity. Qed.

(** The accessor read under the interpreter's default recursion limit. *)
Example controller_read_sample :
  Controller.low_tariff_state 1000 sample_controller = Raise RecursionError.
Proof. vm_compute. reflexivity. Qed.

(** * Further properties of the code *)

(** ** The tracker function, characterised *)

(** X1.  The tracker returns an available snapshot with the number [v]
    exactly when the host holds, for the entity, a text that is not the
    sentinel and that [float] parses to [v]. *)
Theorem tracker_available_iff (float_of_str : string -> option float)
    (hass_states : States) (entity_id : string) (v : float) :
  _async_update_entity_state float_of_str hass_states entity_id
  = Return {| available := true; state := Some v |}
  <-> exists raw,
        hass_states !! entity_id = Some {| HA.state := Some raw |}
        /\ raw <> HA.STATE_UNAVAILABLE
        /\ float_of_str raw = Some v.
Proof.
  split.
  - unfold _async_update_entity_state, py_float.
    destruct (hass_states !! entity_id) as [[[raw|]]|]; simpl; try discriminate.
    destruct (String.eqb_spec raw HA.STATE_UNAVAILABLE) as [E|Hne];
      [discriminate|].
    destruct (float_of_str raw) as [w|] eqn:Hp; simpl; [|discriminate].
    intros [= <-]. exists raw. auto.
  - intros (raw & Hget & Hne & Hp).
    rewrite _async_update_entity_state_total.
    rewrite (entity_snapshot_parsed float_of_str hass_states entity_id raw v
               Hget Hne Hp).
    reflexivity.
Qed.

(** X2.  The tracker always returns a snapshot, and a snapshot it returns
    carries a number exactly when it is available: never a number beside
    [available] false, never [available] true without a number. *)
Theorem tracker_snapshot_invariant (float_of_str : string -> option float)
    (hass_states : States) (entity_id : string) :
  exists st,
    _async_update_entity_state float_of_str hass_states entity_id = Return st
    /\ (available st = true <-> exists v, state st = Some v)
    /\ (available st = false <-> state st = None).
Proof.
  exists (entity_snapshot float_of_str hass_states entity_id).
  split; [apply _async_update_entity_state_total|].
  destruct (entity_snapshot_shape float_of_str hass_states entity_id)
    as [[Ha Hs]|[Ha [v Hs]]]; rewrite Ha, Hs; repeat split;
    try discriminate; try reflexivity; eauto.
  - intros [w Hw]. discriminate.
Qed.

(** ** A refresh on any object *)

Ltac rewrite_lookups :=
  repeat match goal with
    | E : ?m !! ?k = _ |- context [ ?m !! ?k ] => rewrite E; simpl
    end.

Ltac crunch_update :=
  unfold refreshed, async_update, bind, field, lift, assign, ret, subscript;
  simpl;
  repeat (match goal with
          | E : ?m !! ?k = _ |- context [ ?m !! ?k ] => rewrite E; simpl
          | |- context [ ?m !! ?k ] => destruct (m !! k) eqn:?; simpl
          end;
          rewrite ?_async_update_entity_state_total; simpl).

(** X3.  Whatever the object and whether or not the refresh raises,
    [async_update] changes nothing but the snapshots of the inputs whose
    [_include_*] flag is set: class, configuration, names, flags and
    display attributes stay, and so does the snapshot of every input that
    is not included. *)
Theorem async_update_frame (float_of_str : string -> option float)
    (hass_states : States) (self : EnergyDeviceMonitorSensor) :
  let self' := refreshed float_of_str hass_states self in
  __class__ self' = __class__ self
  /\ _entry self' = _entry self
  /\ _subentry self' = _subentry self
  /\ _device_name self' = _device_name self
  /\ _device_friendly_name self' = _device_friendly_name self
  /\ _attrs self' = _attrs self
  /\ (forall i, included i self' = included i self)
  /\ (forall i, included i self = false -> snapshot i self' = snapshot i self).
Proof.
  destruct self as [cls e s dn dfn ilc ihc ilt iht at_ lt ht lc hc].
  destruct ilc, ihc, ilt, iht; crunch_update;
    repeat split; intros []; simpl; intros; try discriminate; reflexivity.
Qed.

Ltac missing_key H :=
  first
    [ solve [destruct (H low_tariff eq_refl) as [? E]; simpl in E;
             unfold subscript in E;
             repeat match type of E with
               | context [ ?m !! ?k ] =>
                   match goal with E' : m !! k = _ |- _ => rewrite E' in E end
               end;
             discriminate E]
    | solve [destruct (H high_tariff eq_refl) as [? E]; simpl in E;
             unfold subscript in E;
             repeat match type of E with
               | context [ ?m !! ?k ] =>
                   match goal with E' : m !! k = _ |- _ => rewrite E' in E end
               end;
             discriminate E]
    | solve [destruct (H low_consumption eq_refl) as [? E]; simpl in E;
             unfold subscript in E;
             repeat match type of E with
               | context [ ?m !! ?k ] =>
                   match goal with E' : m !! k = _ |- _ => rewrite E' in E end
               end;
             discriminate E]
    | solve [destruct (H high_consumption eq_refl) as [? E]; simpl in E;
             unfold subscript in E;
             repeat match type of E with
               | context [ ?m !! ?k ] =>
                   match goal with E' : m !! k = _ |- _ => rewrite E' in E end
               end;
             discriminate E] ].

(** X4.  [async_update] returns normally exactly when the configuration
    holds an entity id for every included input; otherwise it raises
    [KeyError], and it raises nothing else. *)
Theorem async_update_raises_iff_key_missing
    (float_of_str : string -> option float) (hass_states : States)
    (self : EnergyDeviceMonitorSensor) :
  (fst (async_update float_of_str hass_states self) = Return tt
   <-> forall i, included i self = true ->
                 exists entity_id, entity_id_of i self = Return entity_id)
  /\ (fst (async_update float_of_str hass_states self) = Return tt
      \/ fst (async_update float_of_str hass_states self) = Raise KeyError).
Proof.
  destruct self as [cls e s dn dfn ilc ihc ilt iht at_ lt ht lc hc].
  destruct ilc, ihc, ilt, iht; crunch_update;
    (split; [split | auto]);
    try (intros _ [] Hi; simpl in Hi |- *; try discriminate Hi;
         unfold subscript; rewrite_lookups; eauto; fail);
    try (intros H; reflexivity);
    try (intros H; discriminate H);
    intros H; exfalso; missing_key H.
Qed.

(** X5.  The last refresh wins: refreshing from one host state and then
    from another leaves the object, and gives the result, of refreshing from
    the second alone, also when the refresh raises. *)
Theorem async_update_last_wins (float_of_str : string -> option float)
    (older newer : States) (self : EnergyDeviceMonitorSensor) :
  async_update float_of_str newer (refreshed float_of_str older self)
  = async_update float_of_str newer self.
Proof.
  destruct self as [cls e s dn dfn ilc ihc ilt iht at_ lt ht lc hc].
  destruct ilc, ihc, ilt, iht; crunch_update; reflexivity.
Qed.

Ltac earlier_key H j :=
  solve [ destruct (H j eq_refl ltac:(simpl; lia)) as [? E];
          simpl in E; unfold subscript in E;
          repeat match type of E with
            | context [ ?m !! ?k ] =>
                match goal with E' : m !! k = _ |- _ => rewrite E' in E end
            end;
          discriminate E ].

(** X6.  A refresh that raises stops half way.  When the configuration has
    no entity id for an included input [i] while the included inputs before
    it have theirs, [async_update] raises [KeyError]; the included inputs
    before [i] have been refreshed, and the snapshots of [i] and of every
    input after it are still the old ones. *)
Theorem async_update_partial (float_of_str : string -> option float)
    (hass_states : States) (self : EnergyDeviceMonitorSensor) (i : Input) :
  included i self = true ->
  entity_id_of i self = Raise KeyError ->
  (forall j, rank j < rank i -> included j self = true ->
             exists entity_id, entity_id_of j self = Return entity_id) ->
  let self' := refreshed float_of_str hass_states self in
  fst (async_update float_of_str hass_states self) = Raise KeyError
  /\ (forall j entity_id,
        rank j < rank i -> included j self = true ->
        entity_id_of j self = Return entity_id ->
        snapshot j self'
        = Some (entity_snapshot float_of_str hass_states entity_id))
  /\ (forall j, rank i <= rank j -> snapshot j self' = snapshot j self).
Proof.
  intros Hinc Hmiss Hprev.
  assert (Hprev' : forall j, included j self = true -> rank j < rank i ->
                             exists entity_id, entity_id_of j self = Return entity_id)
    by (intros j Hj Hr; exact (Hprev j Hr Hj)).
  clear Hprev.
  destruct self as [cls e s dn dfn ilc ihc ilt iht at_ lt ht lc hc].
  destruct i; simpl in Hinc; subst;
    simpl in Hmiss; unfold subscript in Hmiss;
    match type of Hmiss with
    | context [ ?m !! ?k ] => destruct (m !! k) eqn:Hnone; [discriminate Hmiss|]
    end;
    clear Hmiss;
    repeat match goal with
      | b : bool |- _ => destruct b
      end;
    crunch_update;
    try (exfalso;
         first [ earlier_key Hprev' low_tariff
               | earlier_key Hprev' high_tariff
               | earlier_key Hprev' low_consumption ]);
    (split; [reflexivity | split]);
    intros []; simpl; intros; try lia; try discriminate; try reflexivity;
    unfold subscript in *;
    repeat match goal with
      | E : ?m !! ?k = _, H : context [ ?m !! ?k ] |- _ => rewrite E in H
      end;
    congruence.
Qed.

Lemma async_update_partial_witness :
  included high_tariff sample_broken = true
  /\ entity_id_of high_tariff sample_broken = Raise KeyError
  /\ (forall j, rank j < rank high_tariff -> included j sample_broken = true ->
                exists entity_id, entity_id_of j sample_broken = Return entity_id)
  /\ fst (async_update literal_float sample_hass sample_broken) = Raise KeyError
  /\ snapshot low_tariff (refreshed literal_float sample_hass sample_broken)
     = Some (entity_snapshot literal_float sample_hass "sensor.low_price")
  /\ snapshot low_consumption (refreshed literal_float sample_hass sample_broken)
     = Some unavailable_state.
Proof.
  assert (Hinc : included high_tariff sample_broken = true) by reflexivity.
  assert (Hmiss : entity_id_of high_tariff sample_broken = Raise KeyError)
    by (vm_compute; reflexivity).
  assert (Hprev : forall j, rank j < rank high_tariff ->
                            included j sample_broken = true ->
                            exists entity_id,
                              entity_id_of j sample_broken = Return entity_id).
  { intros [] Hr _; simpl in Hr; try lia.
    exists "sensor.low_price". vm_compute. reflexivity. }
  split; [exact Hinc | split; [exact Hmiss | split; [exact Hprev|]]].
  destruct (async_update_partial literal_float sample_hass sample_broken
              high_tariff Hinc Hmiss Hprev) as (Hraise & Hbefore & Hafter).
  split; [exact Hraise | split].
  - apply Hbefore; [simpl; lia | reflexivity | vm_compute; reflexivity].
  - apply (Hafter low_consumption). simpl. lia.
Defined.

(** ** Construction *)

Lemma new_fields (cls : SensorClass) (CONF_DEVICE_FRIENDLY_NAME : string)
    (entry subentry : gmap string string)
    (self : EnergyDeviceMonitorSensor) (tracked : list string) :
  new cls CONF_DEVICE_FRIENDLY_NAME entry subentry = Return (self, tracked) ->
  _entry self = entry /\ _subentry self = subentry
  /\ subentry !! CONF_DEVICE_NAME = Some (_device_name self)
  /\ subentry !! CONF_DEVICE_FRIENDLY_NAME = Some (_device_friendly_name self).
Proof.
  intros H. destruct cls; run_new H; simpl; auto.
Qed.

Lemma entity_id_of_config (i : Input) (self : EnergyDeviceMonitorSensor)
    (entity_id : string) :
  entity_id_of i self = Return entity_id
  <-> config_value i (_entry self) (_subentry self) = Some entity_id.
Proof.
  destruct i; simpl; unfold subscript;
    match goal with |- context [ ?m !! ?k ] => destruct (m !! k) end;
    split; intros H; try discriminate; injection H as ->; reflexivity.
Qed.

Lemma new_returns_iff_keys (cls : SensorClass)
    (CONF_DEVICE_FRIENDLY_NAME : string) (entry subentry : gmap string string) :
  (exists self tracked,
     new cls CONF_DEVICE_FRIENDLY_NAME entry subentry = Return (self, tracked))
  <-> is_Some (subentry !! CONF_DEVICE_NAME)
      /\ is_Some (subentry !! CONF_DEVICE_FRIENDLY_NAME)
      /\ forall i, In i (dependencies cls) ->
                   is_Some (config_value i entry subentry).
Proof.
  split.
  - intros (self & tracked & H).
    destruct (new_fields _ _ _ _ _ _ H) as (He & Hs & Hn & Hf).
    destruct (new_wired _ _ _ _ _ _ H) as ((_ & Hid) & Hc & _).
    split; [eauto | split; [eauto|]].
    intros i Hi. rewrite <- Hc in Hi.
    apply In_dependencies_includes in Hi.
    destruct (Hid i Hi) as [entity_id Hent].
    apply entity_id_of_config in Hent. rewrite He, Hs in Hent. eauto.
  - intros ([dn Hn] & [dfn Hf] & Hdeps).
    destruct cls; simpl in Hdeps;
      repeat match goal with
        | H : forall i, _ -> is_Some (config_value i entry subentry) |- _ =>
            try (destruct (H low_tariff ltac:(tauto)) as [? ?Hlt]);
            try (destruct (H high_tariff ltac:(tauto)) as [? ?Hht]);
            try (destruct (H low_consumption ltac:(tauto)) as [? ?Hlc]);
            try (destruct (H high_consumption ltac:(tauto)) as [? ?Hhc]);
            clear H
        end;
      simpl in *;
      unfold new, TotalDailyCostSensor.__init__, DailyLowCostSensor.__init__,
        DailyHighCostSensor.__init__, TotalDailyConsumptionSensor.__init__,
        base__init__, py_bind, subscript;
      repeat match goal with
        | E : ?m !! ?k = Some _ |- context [ ?m !! ?k ] => rewrite E; simpl
        end;
      eauto.
Qed.

Lemma new_raises_only_KeyError (cls : SensorClass)
    (CONF_DEVICE_FRIENDLY_NAME : string) (entry subentry : gmap string string)
    (e : exn) :
  new cls CONF_DEVICE_FRIENDLY_NAME entry subentry = Raise e -> e = KeyError.
Proof.
  intros H. destruct cls;
    unfold new, TotalDailyCostSensor.__init__, DailyLowCostSensor.__init__,
      DailyHighCostSensor.__init__, TotalDailyConsumptionSensor.__init__,
      base__init__, py_bind, subscript in H;
    repeat match type of H with
      | context [ ?m !! ?k ] => destruct (m !! k); simpl in H
      end;
    congruence.
Qed.

(** X7.  A constructor returns an object exactly when the subentry's data
    has the device name and the friendly name and the configuration has an
    entity id for every input the class declares; otherwise it raises
    [KeyError], and nothing else. *)
Theorem new_succeeds_iff_keys (cls : SensorClass)
    (CONF_DEVICE_FRIENDLY_NAME : string) (entry subentry : gmap string string) :
  ((exists self tracked,
      new cls CONF_DEVICE_FRIENDLY_NAME entry subentry = Return (self, tracked))
   <-> is_Some (subentry !! CONF_DEVICE_NAME)
       /\ is_Some (subentry !! CONF_DEVICE_FRIENDLY_NAME)
       /\ forall i, In i (dependencies cls) ->
                    is_Some (config_value i entry subentry))
  /\ (forall e, new cls CONF_DEVICE_FRIENDLY_NAME entry subentry = Raise e ->
                e = KeyError).
Proof.
  split.
  - apply new_returns_iff_keys.
  - intros e. apply new_raises_only_KeyError.
Qed.

(** X8.  The entity ids a constructor hands to the host's change tracker
    are the configured ids of the inputs its class declares, in the order
    low tariff, high tariff, low consumption, high consumption, and no
    others: a tariff cost metric subscribes to two sources, never to those
    of the other tariff. *)
Theorem new_subscribes_to_dependencies (cls : SensorClass)
    (CONF_DEVICE_FRIENDLY_NAME : string) (entry subentry : gmap string string)
    (self : EnergyDeviceMonitorSensor) (tracked : list string) :
  new cls CONF_DEVICE_FRIENDLY_NAME entry subentry = Return (self, tracked) ->
  map Some tracked
  = map (fun i => config_value i entry subentry) (dependencies cls)
  /\ length tracked = length (dependencies cls)
  /\ (forall i, included i self = true <-> In i (dependencies cls)).
Proof.
  intros H.
  destruct (new_wired _ _ _ _ _ _ H) as ((Hinc & _) & Hc & _).
  assert (Hmap : map Some tracked
                 = map (fun i => config_value i entry subentry) (dependencies cls)).
  { clear Hinc Hc. destruct cls; run_new H; simpl;
      repeat match goal with E : _ !! _ = Some _ |- _ => rewrite E; clear E end;
      reflexivity. }
  split; [exact Hmap | split].
  - apply (f_equal (@length _)) in Hmap. rewrite !length_map in Hmap. exact Hmap.
  - intros i. rewrite Hinc, Hc. symmetry. apply In_dependencies_includes.
Qed.

Lemma new_subscribes_to_dependencies_witness :
  new DailyLowCost sample_friendly_key sample_entry sample_subentry
  = Return (sample_new DailyLowCost, ["sensor.low_price"; "sensor.low_kwh"])
  /\ map Some ["sensor.low_price"; "sensor.low_kwh"]
     = map (fun i => config_value i sample_entry sample_subentry)
         (dependencies DailyLowCost).
Proof.
  assert (H : new DailyLowCost sample_friendly_key sample_entry sample_subentry
              = Return (sample_new DailyLowCost,
                        ["sensor.low_price"; "sensor.low_kwh"]))
    by (vm_compute; reflexivity).
  split; [exact H|].
  exact (proj1 (new_subscribes_to_dependencies _ _ _ _ _ _ H)).
Defined.

(** ** Construction followed by refreshes *)

Lemma refreshes_wired (float_of_str : string -> option float)
    (history : list States) (self : EnergyDeviceMonitorSensor) :
  wired self ->
  wired (refreshes float_of_str history self)
  /\ same_wiring self (refreshes float_of_str history self).
Proof.
  revert self. induction history as [|hass_states history IH]; intros self Hw.
  - split; [exact Hw|]. repeat split; reflexivity.
  - simpl.
    destruct (async_update_wired float_of_str hass_states self Hw)
      as (_ & Hsame & _).
    pose proof (wired_same_wiring _ _ Hsame Hw) as Hw'.
    destruct (IH _ Hw') as (Hw'' & Hsame'').
    split; [exact Hw''|].
    destruct Hsame as (Hc & Hi & He). destruct Hsame'' as (Hc' & Hi' & He').
    repeat split.
    + congruence.
    + intros i. rewrite Hi. apply Hi'.
    + intros i. rewrite He. apply He'.
Qed.

(** X9.  An object a constructor returned can be refreshed for ever: after
    any history of refreshes, [async_update] returns normally, whatever the
    host holds, and the snapshot of every declared input is the tracker's
    reading of the latest host state alone. *)
Theorem refresh_after_construction (cls : SensorClass)
    (CONF_DEVICE_FRIENDLY_NAME : string) (entry subentry : gmap string string)
    (self : EnergyDeviceMonitorSensor) (tracked : list string)
    (float_of_str : string -> option float) :
  new cls CONF_DEVICE_FRIENDLY_NAME entry subentry = Return (self, tracked) ->
  forall (history : list States) (hass_states : States),
    let before := refreshes float_of_str history self in
    fst (async_update float_of_str hass_states before) = Return tt
    /\ (forall i entity_id,
          In i (dependencies cls) ->
          config_value i entry subentry = Some entity_id ->
          snapshot i (refreshed float_of_str hass_states before)
          = Some (entity_snapshot float_of_str hass_states entity_id)).
Proof.
  intros Hnew history hass_states before.
  destruct (new_wired _ _ _ _ _ _ Hnew) as (Hw & Hc & _).
  destruct (new_fields _ _ _ _ _ _ Hnew) as (He & Hs & _).
  destruct (refreshes_wired float_of_str history self Hw)
    as (Hwb & (Hcb & _ & Heb)).
  fold before in Hwb, Hcb, Heb.
  destruct (async_update_wired float_of_str hass_states before Hwb) as (Hrun & _).
  split; [rewrite Hrun; reflexivity|].
  intros i entity_id Hi Hcfg.
  apply (refreshed_snapshot float_of_str hass_states before i entity_id Hwb).
  - rewrite <- Hcb, Hc. exact Hi.
  - rewrite <- Heb. apply entity_id_of_config. rewrite He, Hs. exact Hcfg.
Qed.

Lemma refresh_after_construction_witness :
  new TotalDailyCost sample_friendly_key sample_entry sample_subentry
  = Return (sample_new TotalDailyCost,
            ["sensor.low_price"; "sensor.high_price";
             "sensor.low_kwh"; "sensor.high_kwh"])
  /\ fst (async_update literal_float sample_hass
            (refreshes literal_float [∅; sample_hass_low_unavailable]
               (sample_new TotalDailyCost)))
     = Return tt.
Proof.
  assert (H : new TotalDailyCost sample_friendly_key sample_entry sample_subentry
              = Return (sample_new TotalDailyCost,
                        ["sensor.low_price"; "sensor.high_price";
                         "sensor.low_kwh"; "sensor.high_kwh"]))
    by (vm_compute; reflexivity).
  split; [exact H|].
  exact (proj1 (refresh_after_construction _ _ _ _ _ _ literal_float H
                  [∅; sample_hass_low_unavailable] sample_hass)).
Defined.

(** ** Availability guards the value *)

Lemma forallb_false_exists {A : Type} (f : A -> bool) (l : list A) :
  forallb f l = false -> exists x, In x l /\ f x = false.
Proof.
  induction l as [|a l IH]; simpl; [discriminate|].
  destruct (f a) eqn:Ha; simpl.
  - intros H. destruct (IH H) as (x & Hx & Hfx). exists x. auto.
  - intros _. exists a. auto.
Qed.

Lemma refreshed_shapes (float_of_str : string -> option float)
    (hass_states : States) (self : EnergyDeviceMonitorSensor) :
  wired self ->
  let self' := refreshed float_of_str hass_states self in
  forall i, In i (dependencies (__class__ self')) ->
            available (snapshots_of_sensor self' i) = true ->
            exists v, state (snapshots_of_sensor self' i) = Some v.
Proof.
  intros Hw self' i Hi Ha. subst self'.
  rewrite (refreshed_class float_of_str hass_states self Hw) in Hi.
  destruct (async_update_wired float_of_str hass_states self Hw)
    as (_ & _ & Hinc & _).
  apply In_dependencies_includes in Hi.
  destruct (Hinc i Hi) as (e' & _ & Hs).
  unfold snapshots_of_sensor in *. rewrite Hs in *.
  destruct (entity_snapshot_shape float_of_str hass_states e')
    as [[Hf _]|[_ Hv]]; [congruence | exact Hv].
Qed.

(** X10.  On a refreshed metric, [native_value] returns a number exactly
    when [available] returns true: the availability flag is an exact guard
    for the value read. *)
Theorem refreshed_value_iff_available (float_of_str : string -> option float)
    (hass_states : States) (self : EnergyDeviceMonitorSensor) :
  wired self ->
  let self' := refreshed float_of_str hass_states self in
  (exists v, sensor_native_value self' = (Return v, self'))
  <-> sensor_available self' = (Return true, self').
Proof.
  intros Hw self'.
  destruct (refreshed_table float_of_str hass_states self Hw) as (Htab & Hshape).
  fold self' in Htab, Hshape.
  pose proof (refreshed_shapes float_of_str hass_states self Hw) as Hsome.
  fold self' in Hsome. simpl in Hsome.
  rewrite (sensor_available_snapshots self' _ Htab).
  destruct (forallb (fun i => available (snapshots_of_sensor self' i))
              (dependencies (__class__ self'))) eqn:Hall.
  - split; [reflexivity|]. intros _.
    rewrite forallb_forall in Hall.
    exists (combine (__class__ self')
              (fun i => match state (snapshots_of_sensor self' i) with
                        | Some x => x
                        | None => S754_zero false
                        end)).
    apply sensor_native_value_snapshots.
    intros i Hi. rewrite (Htab i Hi). f_equal.
    destruct (Hsome i Hi (Hall i Hi)) as [x Hx].
    pose proof (Hall i Hi) as Ha. simpl in Ha.
    destruct (snapshots_of_sensor self' i) as [a s]. simpl in *.
    subst. reflexivity.
  - split; [|discriminate].
    intros [v Hv]. exfalso.
    destruct (forallb_false_exists _ _ Hall) as (i & Hi & Hfalse).
    rewrite (sensor_native_value_unavailable self' _ Htab Hshape) in Hv;
      [discriminate | eauto].
Qed.

Lemma refreshed_value_iff_available_witness :
  wired (sample_new TotalDailyCost)
  /\ ((exists v, sensor_native_value (sample_sensor TotalDailyCost sample_hass)
                 = (Return v, sample_sensor TotalDailyCost sample_hass))
      <-> sensor_available (sample_sensor TotalDailyCost sample_hass)
          = (Return true, sample_sensor TotalDailyCost sample_hass)).
Proof.
  split; [apply sample_new_wired|].
  exact (refreshed_value_iff_available literal_float sample_hass
           (sample_new TotalDailyCost) (sample_new_wired TotalDailyCost)).
Defined.

(** X11.  From host to value: when the host holds, for every declared input
    of a metric, a text other than the sentinel that [float] parses, then
    after a refresh [available] returns true and [native_value] returns the
    metric's combination of the parsed numbers. *)
Theorem refresh_then_read (float_of_str : string -> option float)
    (hass_states : States) (self : EnergyDeviceMonitorSensor)
    (v : Input -> float) :
  wired self ->
  (forall i, In i (dependencies (__class__ self)) ->
             exists entity_id raw,
               entity_id_of i self = Return entity_id
               /\ hass_states !! entity_id = Some {| HA.state := Some raw |}
               /\ raw <> HA.STATE_UNAVAILABLE
               /\ float_of_str raw = Some (v i)) ->
  let self' := refreshed float_of_str hass_states self in
  sensor_available self' = (Return true, self')
  /\ sensor_native_value self' = (Return (combine (__class__ self) v), self').
Proof.
  intros Hw Hhost self'.
  pose proof (refreshed_class float_of_str hass_states self Hw) as Hc.
  fold self' in Hc.
  assert (Hsnap : forall i, In i (dependencies (__class__ self')) ->
                            snapshot i self'
                            = Some {| available := true; state := Some (v i) |}).
  { intros i Hi. rewrite Hc in Hi.
    destruct (Hhost i Hi) as (entity_id & raw & Hid & Hget & Hne & Hp).
    unfold self'.
    rewrite (refreshed_snapshot float_of_str hass_states self i entity_id
               Hw Hi Hid).
    rewrite (entity_snapshot_parsed float_of_str hass_states entity_id raw (v i)
               Hget Hne Hp).
    reflexivity. }
  split.
  - rewrite (sensor_available_snapshots self'
               (fun i => {| available := true; state := Some (v i) |}) Hsnap).
    f_equal. f_equal. apply forallb_forall. reflexivity.
  - rewrite <- Hc. apply sensor_native_value_snapshots. exact Hsnap.
Qed.

Lemma refresh_then_read_witness :
  wired (sample_new DailyLowCost)
  /\ (forall i, In i (dependencies (__class__ (sample_new DailyLowCost))) ->
                exists entity_id raw,
                  entity_id_of i (sample_new DailyLowCost) = Return entity_id
                  /\ sample_hass !! entity_id = Some {| HA.state := Some raw |}
                  /\ raw <> HA.STATE_UNAVAILABLE
                  /\ literal_float raw = Some (sample_values i))
  /\ sensor_native_value (sample_sensor DailyLowCost sample_hass)
     = (Return (float_mul f0_20 f10_0), sample_sensor DailyLowCost sample_hass).
Proof.
  assert (Hhost : forall i,
             In i (dependencies (__class__ (sample_new DailyLowCost))) ->
             exists entity_id raw,
               entity_id_of i (sample_new DailyLowCost) = Return entity_id
               /\ sample_hass !! entity_id = Some {| HA.state := Some raw |}
               /\ raw <> HA.STATE_UNAVAILABLE
               /\ literal_float raw = Some (sample_values i)).
  { intros i [<-|[<-|[]]].
    - exists "sensor.low_price", "0.20".
      repeat split; try (vm_compute; reflexivity). discriminate.
    - exists "sensor.low_kwh", "10.0".
      repeat split; try (vm_compute; reflexivity). discriminate. }
  split; [apply sample_new_wired | split; [exact Hhost|]].
  exact (proj2 (refresh_then_read literal_float sample_hass
                  (sample_new DailyLowCost) sample_values
                  (sample_new_wired DailyLowCost) Hhost)).
Defined.

(** ** Entities a metric does not depend on *)

Lemma entity_snapshot_insert_ne (float_of_str : string -> option float)
    (hass_states : States) (entity_id other : string) (st : HA.State) :
  entity_id <> other ->
  entity_snapshot float_of_str (<[other := st]> hass_states) entity_id
  = entity_snapshot float_of_str hass_states entity_id.
Proof.
  intros Hne. unfold entity_snapshot, _async_update_entity_state.
  rewrite lookup_insert_ne by congruence. reflexivity.
Qed.

Lemma entity_snapshot_delete_ne (float_of_str : string -> option float)
    (hass_states : States) (entity_id other : string) :
  entity_id <> other ->
  entity_snapshot float_of_str (delete other hass_states) entity_id
  = entity_snapshot float_of_str hass_states entity_id.
Proof.
  intros Hne. unfold entity_snapshot, _async_update_entity_state.
  rewrite lookup_delete_ne by congruence. reflexivity.
Qed.

(** X12.  A metric depends on its own sources only: when the host changes
    or drops the state of an entity that is none of the configured sources
    of the metric's included inputs, a refresh gives the same result and
    the same object as without that change. *)
Theorem async_update_ignores_other_entities
    (float_of_str : string -> option float) (hass_states : States)
    (self : EnergyDeviceMonitorSensor) (other : string) :
  (forall i entity_id,
     included i self = true -> entity_id_of i self = Return entity_id ->
     entity_id <> other) ->
  (forall st,
     async_update float_of_str (<[other := st]> hass_states) self
     = async_update float_of_str hass_states self)
  /\ async_update float_of_str (delete other hass_states) self
     = async_update float_of_str hass_states self.
Proof.
  intros H.
  assert (Hlt : forall entity_id,
             _include_low_tariff self = true ->
             _entry self !! CONF_LOW_TARIFF_ENTITY = Some entity_id ->
             entity_id <> other).
  { intros entity_id Hi Hk. apply (H low_tariff entity_id Hi).
    simpl. unfold subscript. rewrite Hk. reflexivity. }
  assert (Hht : forall entity_id,
             _include_high_tariff self = true ->
             _entry self !! CONF_HIGH_TARIFF_ENTITY = Some entity_id ->
             entity_id <> other).
  { intros entity_id Hi Hk. apply (H high_tariff entity_id Hi).
    simpl. unfold subscript. rewrite Hk. reflexivity. }
  assert (Hlc : forall entity_id,
             _include_low_consumption self = true ->
             _subentry self !! CONF_LOW_CONSUMPTION_ENTITY = Some entity_id ->
             entity_id <> other).
  { intros entity_id Hi Hk. apply (H low_consumption entity_id Hi).
    simpl. unfold subscript. rewrite Hk. reflexivity. }
  assert (Hhc : forall entity_id,
             _include_high_consumption self = true ->
             _subentry self !! CONF_HIGH_CONSUMPTION_ENTITY = Some entity_id ->
             entity_id <> other).
  { intros entity_id Hi Hk. apply (H high_consumption entity_id Hi).
    simpl. unfold subscript. rewrite Hk. reflexivity. }
  clear H.
  destruct self as [cls e s dn dfn ilc ihc ilt iht at_ lt ht lc hc].
  simpl in Hlt, Hht, Hlc, Hhc.
  destruct ilc, ihc, ilt, iht; (split; [intros st|]); crunch_update;
    repeat match goal with
      | H : forall entity_id, true = true -> Some ?x = Some entity_id -> _ |- _ =>
          pose proof (H x eq_refl eq_refl); clear H
      end;
    rewrite ?entity_snapshot_insert_ne, ?entity_snapshot_delete_ne by assumption;
    reflexivity.
Qed.

Lemma async_update_ignores_other_entities_witness :
  (forall i entity_id,
     included i (sample_new DailyLowCost) = true ->
     entity_id_of i (sample_new DailyLowCost) = Return entity_id ->
     entity_id <> "sensor.high_price")
  /\ async_update literal_float
       (<["sensor.high_price" := raw_state HA.STATE_UNAVAILABLE]> sample_hass)
       (sample_new DailyLowCost)
     = async_update literal_float sample_hass (sample_new DailyLowCost).
Proof.
  assert (H : forall i entity_id,
             included i (sample_new DailyLowCost) = true ->
             entity_id_of i (sample_new DailyLowCost) = Return entity_id ->
             entity_id <> "sensor.high_price").
  { intros [] entity_id Hi Hid; vm_compute in Hi; try discriminate Hi;
      vm_compute in Hid; injection Hid as <-; discriminate. }
  split; [exact H|].
  exact (proj1 (async_update_ignores_other_entities literal_float sample_hass
                  (sample_new DailyLowCost) "sensor.high_price" H)
           (raw_state HA.STATE_UNAVAILABLE)).
Defined.

(** ** The metrics of one device, compared *)

(** X13.  On any object, the total cost is the floating-point sum of the low
    tariff cost and the high tariff cost read on the same snapshots, and it
    fails as the first of the two that fails. *)
Theorem total_cost_is_sum_of_tariff_costs (self : EnergyDeviceMonitorSensor) :
  TotalDailyCostSensor.native_value self
  = match DailyLowCostSensor.native_value self,
          DailyHighCostSensor.native_value self with
    | (Return low, _), (Return high, _) => (Return (float_add low high), self)
    | (Raise e, _), _ => (Raise e, self)
    | (Return _, _), (Raise e, _) => (Raise e, self)
    end.
Proof.
  destruct self as [cls e s dn dfn ilc ihc ilt iht at_ lt ht lc hc].
  run_property.
  destruct lt as [[? [?|]]|], lc as [[? [?|]]|], ht as [[? [?|]]|],
    hc as [[? [?|]]|]; reflexivity.
Qed.

(** X14.  Whenever the availability of the low tariff cost and of the high
    tariff cost can both be read on an object, the availability of the
    total cost on it is their conjunction. *)
Theorem total_cost_available_is_conjunction (self : EnergyDeviceMonitorSensor)
    (low high : bool) :
  fst (DailyLowCostSensor.available self) = Return low ->
  fst (DailyHighCostSensor.available self) = Return high ->
  TotalDailyCostSensor.available self = (Return (low && high), self).
Proof.
  destruct self as [cls e s dn dfn ilc ihc ilt iht at_ lt ht lc hc].
  run_property.
  destruct lt as [[[] ?]|], lc as [[[] ?]|], ht as [[[] ?]|], hc as [[[] ?]|];
    simpl; intros [= <-] [= <-]; reflexivity.
Qed.

Lemma total_cost_available_is_conjunction_witness :
  let self := sample_sensor TotalDailyCost sample_hass_low_unavailable in
  fst (DailyLowCostSensor.available self) = Return false
  /\ fst (DailyHighCostSensor.available self) = Return true
  /\ TotalDailyCostSensor.available self = (Return false, self).
Proof.
  assert (Hl : fst (DailyLowCostSensor.available
                      (sample_sensor TotalDailyCost sample_hass_low_unavailable))
               = Return false) by (vm_compute; reflexivity).
  assert (Hh : fst (DailyHighCostSensor.available
                      (sample_sensor TotalDailyCost sample_hass_low_unavailable))
               = Return true) by (vm_compute; reflexivity).
  split; [exact Hl | split; [exact Hh|]].
  exact (total_cost_available_is_conjunction _ false true Hl Hh).
Defined.

(** ** Platform setup *)

Lemma async_setup_entry_cons (CFN : string) (entry : gmap string string)
    (subentry : ConfigSubentry) (rest : list ConfigSubentry) :
  async_setup_entry CFN entry (subentry :: rest)
  = if is_device subentry
    then setup_bind (setup_device CFN entry subentry)
           (fun _ => async_setup_entry CFN entry rest)
    else async_setup_entry CFN entry rest.
Proof.
  cbn [async_setup_entry]. unfold is_device.
  destruct (String.eqb (subentry_type subentry) "device"); cbn [negb];
    [|reflexivity].
  unfold setup_device, construct.
  destruct (new DailyLowCost CFN entry (data subentry)) as [[? ?]|];
    [|reflexivity].
  destruct (new DailyHighCost CFN entry (data subentry)) as [[? ?]|];
    [|reflexivity].
  destruct (new TotalDailyCost CFN entry (data subentry)) as [[? ?]|];
    [|reflexivity].
  destruct (new TotalDailyConsumption CFN entry (data subentry)) as [[? ?]|];
    [|reflexivity].
  unfold setup_bind; cbn [fst snd app].
  destruct (async_setup_entry CFN entry rest) as [r calls]. reflexivity.
Qed.

Lemma all_inputs_present (entry subentry : gmap string string) :
  (forall cls i, In i (dependencies cls) -> is_Some (config_value i entry subentry))
  <-> (forall i, is_Some (config_value i entry subentry)).
Proof.
  split.
  - intros H i. apply (H TotalDailyCost). destruct i; simpl; tauto.
  - intros H cls i _. apply H.
Qed.

Lemma setup_device_result (CFN : string) (entry : gmap string string)
    (subentry : ConfigSubentry) :
  (device_keys_present CFN entry (data subentry)
   /\ exists e1 e2 e3 e4 t1 t2 t3 t4,
        new DailyLowCost CFN entry (data subentry) = Return (e1, t1)
        /\ new DailyHighCost CFN entry (data subentry) = Return (e2, t2)
        /\ new TotalDailyCost CFN entry (data subentry) = Return (e3, t3)
        /\ new TotalDailyConsumption CFN entry (data subentry) = Return (e4, t4)
        /\ setup_device CFN entry subentry
           = (Return tt,
              [async_track_state_change_event t1;
               async_track_state_change_event t2;
               async_track_state_change_event t3;
               async_track_state_change_event t4;
               async_add_entities [e1; e2; e3; e4] true (subentry_id subentry)]))
  \/ (~ device_keys_present CFN entry (data subentry)
      /\ fst (setup_device CFN entry subentry) = Raise KeyError
      /\ added (snd (setup_device CFN entry subentry)) = []
      /\ added_entities (snd (setup_device CFN entry subentry)) = []).
Proof.
  assert (Hfail : forall cls e,
             new cls CFN entry (data subentry) = Raise e ->
             e = KeyError /\ ~ device_keys_present CFN entry (data subentry)).
  { intros cls e H. split; [exact (new_raises_only_KeyError _ _ _ _ _ H)|].
    intros (Hn & Hf & Hall).
    destruct (proj2 (new_returns_iff_keys cls CFN entry (data subentry)))
      as (self & tracked & Hok); [auto|]. congruence. }
  unfold setup_device, construct.
  destruct (new DailyLowCost CFN entry (data subentry)) as [[e1 t1]|x1] eqn:H1;
    [|destruct (Hfail _ _ H1) as [-> Hno]; right; repeat split; auto].
  destruct (new DailyHighCost CFN entry (data subentry)) as [[e2 t2]|x2] eqn:H2;
    [|destruct (Hfail _ _ H2) as [-> Hno]; right; repeat split; auto].
  destruct (new TotalDailyCost CFN entry (data subentry)) as [[e3 t3]|x3] eqn:H3;
    [|destruct (Hfail _ _ H3) as [-> Hno]; right; repeat split; auto].
  destruct (new TotalDailyConsumption CFN entry (data subentry))
    as [[e4 t4]|x4] eqn:H4;
    [|destruct (Hfail _ _ H4) as [-> Hno]; right; repeat split; auto].
  left. split.
  - destruct (proj1 (new_returns_iff_keys TotalDailyCost CFN entry (data subentry)))
      as (Hn & Hf & Hall); [eauto|].
    split; [exact Hn | split; [exact Hf|]].
    intros i. apply Hall. destruct i; simpl; tauto.
  - exists e1, e2, e3, e4, t1, t2, t3, t4. repeat split; reflexivity.
Qed.

Lemma added_app (a b : list HostCall) : added (a ++ b) = (added a ++ added b)%list.
Proof. unfold added. apply flat_map_app. Qed.

Lemma added_entities_app (a b : list HostCall) :
  added_entities (a ++ b) = (added_entities a ++ added_entities b)%list.
Proof. unfold added_entities. apply flat_map_app. Qed.

(** X15.  The platform setup ignores every subentry whose type is not
    [device]: it makes the same host calls and ends the same way as on the
    device subentries alone. *)
Theorem async_setup_entry_skips_other_types (CFN : string)
    (entry : gmap string string) (subentries : list ConfigSubentry) :
  async_setup_entry CFN entry (List.filter is_device subentries)
  = async_setup_entry CFN entry subentries.
Proof.
  induction subentries as [|subentry rest IH]; [reflexivity|].
  rewrite async_setup_entry_cons. cbn [List.filter].
  destruct (is_device subentry) eqn:Hd; [|exact IH].
  rewrite async_setup_entry_cons, Hd.
  destruct (setup_device CFN entry subentry) as [[[]|e] calls];
    unfold setup_bind; rewrite ?IH; reflexivity.
Qed.

(** X16.  The setup works through the subentries in order and stops at the
    first failure: on a list in two parts it makes the calls of the first
    part and, only if that part did not raise, continues with the calls and
    the result of the second. *)
Theorem async_setup_entry_app (CFN : string) (entry : gmap string string)
    (first second : list ConfigSubentry) :
  async_setup_entry CFN entry (first ++ second)
  = setup_bind (async_setup_entry CFN entry first)
      (fun _ => async_setup_entry CFN entry second).
Proof.
  induction first as [|subentry rest IH].
  - cbn [app async_setup_entry]. unfold setup_bind. cbn [app].
    destruct (async_setup_entry CFN entry second). reflexivity.
  - rewrite <- app_comm_cons, !async_setup_entry_cons.
    destruct (is_device subentry); [|exact IH].
    destruct (setup_device CFN entry subentry) as [[[]|e] calls];
      unfold setup_bind in *; [|reflexivity].
    rewrite IH.
    destruct (async_setup_entry CFN entry rest) as [[[]|e] calls'];
      cbn [fst snd]; rewrite ?app_assoc; reflexivity.
Qed.

(** X17.  The platform setup returns normally exactly when, for every device
    subentry, the subentry's data has the device name, the friendly name and
    both consumption sources and the entry's data has both tariff sources;
    otherwise it raises [KeyError], and nothing else. *)
Theorem async_setup_entry_succeeds_iff (CFN : string)
    (entry : gmap string string) (subentries : list ConfigSubentry) :
  (fst (async_setup_entry CFN entry subentries) = Return tt
   <-> forall subentry, In subentry subentries -> is_device subentry = true ->
                        device_keys_present CFN entry (data subentry))
  /\ (fst (async_setup_entry CFN entry subentries) = Return tt
      \/ fst (async_setup_entry CFN entry subentries) = Raise KeyError).
Proof.
  induction subentries as [|subentry rest [IHiff IHor]].
  - split; [split; [intros _ ? []|reflexivity] | left; reflexivity].
  - rewrite async_setup_entry_cons.
    destruct (is_device subentry) eqn:Hd.
    + destruct (setup_device_result CFN entry subentry)
        as [(Hkeys & e1 & e2 & e3 & e4 & t1 & t2 & t3 & t4 & _ & _ & _ & _ & Hrun)
           |(Hno & Hraise & _)].
      * rewrite Hrun. unfold setup_bind. cbn [fst].
        split; [|exact IHor]. rewrite IHiff. split.
        -- intros H s [<-|Hs] Hds; [exact Hkeys | exact (H s Hs Hds)].
        -- intros H s Hs. apply H. right. exact Hs.
      * destruct (setup_device CFN entry subentry) as [[[]|e] calls];
          cbn [fst] in Hraise; [discriminate|]. injection Hraise as ->.
        unfold setup_bind. cbn [fst].
        split; [|right; reflexivity]. split; [discriminate|].
        intros H. exfalso. apply Hno. apply H; [left; reflexivity | exact Hd].
    + split; [|exact IHor]. rewrite IHiff. split.
      * intros H s [<-|Hs] Hds; [congruence | exact (H s Hs Hds)].
      * intros H s Hs. apply H. right. exact Hs.
Qed.

(** X18.  When the setup returns normally it has called
    [async_add_entities] once per device subentry, in the subentries' order,
    each time with the subentry's id, [update_before_add] true and four
    entities: low tariff cost, high tariff cost, total cost, total
    consumption. *)
Theorem async_setup_entry_adds (CFN : string) (entry : gmap string string)
    (subentries : list ConfigSubentry) :
  fst (async_setup_entry CFN entry subentries) = Return tt ->
  added (snd (async_setup_entry CFN entry subentries))
  = map describe (List.filter is_device subentries).
Proof.
  induction subentries as [|subentry rest IH]; [reflexivity|].
  rewrite async_setup_entry_cons. cbn [List.filter].
  destruct (is_device subentry) eqn:Hd; [|exact IH].
  destruct (setup_device_result CFN entry subentry)
    as [(_ & e1 & e2 & e3 & e4 & t1 & t2 & t3 & t4 & H1 & H2 & H3 & H4 & Hrun)
       |(_ & Hraise & _)].
  - rewrite Hrun. unfold setup_bind. cbn [fst snd]. intros Hok.
    rewrite added_app, (IH Hok). cbn [map]. unfold describe at 1.
    cbn [added flat_map map app].
    destruct (new_wired _ _ _ _ _ _ H1) as (_ & -> & _).
    destruct (new_wired _ _ _ _ _ _ H2) as (_ & -> & _).
    destruct (new_wired _ _ _ _ _ _ H3) as (_ & -> & _).
    destruct (new_wired _ _ _ _ _ _ H4) as (_ & -> & _).
    reflexivity.
  - destruct (setup_device CFN entry subentry) as [[[]|e] calls];
      cbn [fst] in Hraise; [discriminate|].
    unfold setup_bind. cbn [fst]. discriminate.
Qed.

(** X19.  Every entity the setup hands to the host, also in a run that
    raises later, reads the entry's data and the data of one device
    subentry, has no snapshot yet, and can be refreshed from any host state
    without raising. *)
Theorem async_setup_entry_entities_refresh (CFN : string)
    (entry : gmap string string) (subentries : list ConfigSubentry)
    (e : EnergyDeviceMonitorSensor) :
  In e (added_entities (snd (async_setup_entry CFN entry subentries))) ->
  _entry e = entry
  /\ (exists subentry, In subentry subentries /\ is_device subentry = true
                       /\ _subentry e = data subentry)
  /\ (forall i, snapshot i e = None)
  /\ (forall float_of_str hass_states,
        fst (async_update float_of_str hass_states e) = Return tt).
Proof.
  induction subentries as [|subentry rest IH]; [intros []|].
  rewrite async_setup_entry_cons.
  assert (Hrest : In e (added_entities (snd (async_setup_entry CFN entry rest))) ->
                  _entry e = entry
                  /\ (exists s, In s (subentry :: rest) /\ is_device s = true
                                /\ _subentry e = data s)
                  /\ (forall i, snapshot i e = None)
                  /\ (forall float_of_str hass_states,
                        fst (async_update float_of_str hass_states e) = Return tt)).
  { intros H. destruct (IH H) as (He & (s & Hs & Hd & Hsub) & Hnone & Hrun).
    split; [exact He | split; [|split; assumption]].
    exists s. split; [right; exact Hs | split; assumption]. }
  destruct (is_device subentry) eqn:Hd; [|exact Hrest].
  destruct (setup_device_result CFN entry subentry)
    as [(_ & e1 & e2 & e3 & e4 & t1 & t2 & t3 & t4 & H1 & H2 & H3 & H4 & Hrun)
       |(_ & Hraise & _ & Hnone)].
  - rewrite Hrun. unfold setup_bind. cbn [fst snd].
    rewrite added_entities_app. intros Hin. apply in_app_or in Hin.
    destruct Hin as [Hin|Hin]; [|exact (Hrest Hin)].
    cbn [added_entities flat_map app] in Hin.
    assert (Hnew : exists cls tracked,
               new cls CFN entry (data subentry) = Return (e, tracked)).
    { destruct Hin as [<-|[<-|[<-|[<-|[]]]]]; eauto. }
    destruct Hnew as (cls & tracked & Hnew).
    destruct (new_wired _ _ _ _ _ _ Hnew) as (Hw & _ & Hnone).
    destruct (new_fields _ _ _ _ _ _ Hnew) as (He & Hs & _).
    split; [exact He | split; [|split; [exact Hnone|]]].
    + exists subentry. split; [left; reflexivity | split; assumption].
    + intros float_of_str hass_states.
      destruct (async_update_wired float_of_str hass_states e Hw) as (-> & _).
      reflexivity.
  - destruct (setup_device CFN entry subentry) as [[[]|x] calls];
      cbn [fst] in Hraise; [discriminate|].
    unfold setup_bind. cbn [snd] in *. rewrite Hnone. intros [].
Qed.

Lemma async_setup_entry_adds_witness :
  fst (async_setup_entry sample_friendly_key sample_entry
         [sample_note; sample_device]) = Return tt
  /\ added (snd (async_setup_entry sample_friendly_key sample_entry
                   [sample_note; sample_device]))
     = [("01-boiler",
         [DailyLowCost; DailyHighCost; TotalDailyCost; TotalDailyConsumption],
         true)].
Proof.
  assert (H : fst (async_setup_entry sample_friendly_key sample_entry
                     [sample_note; sample_device]) = Return tt)
    by (vm_compute; reflexivity).
  split; [exact H|].
  exact (async_setup_entry_adds sample_friendly_key sample_entry
           [sample_note; sample_device] H).
Defined.

Lemma async_setup_entry_entities_refresh_witness :
  In (sample_new DailyLowCost)
    (added_entities
       (snd (async_setup_entry sample_friendly_key sample_entry
               [sample_device; sample_device_incomplete])))
  /\ fst (async_setup_entry sample_friendly_key sample_entry
            [sample_device; sample_device_incomplete]) = Raise KeyError
  /\ (forall float_of_str hass_states,
        fst (async_update float_of_str hass_states (sample_new DailyLowCost))
        = Return tt).
Proof.
  assert (H : In (sample_new DailyLowCost)
                (added_entities
                   (snd (async_setup_entry sample_friendly_key sample_entry
                           [sample_device; sample_device_incomplete]))))
    by (vm_compute; left; reflexivity).
  split; [exact H | split; [vm_compute; reflexivity|]].
  exact (proj2 (proj2 (proj2
           (async_setup_entry_entities_refresh sample_friendly_key sample_entry
              [sample_device; sample_device_incomplete]
              (sample_new DailyLowCost) H)))).
Defined.

(** ** The configuration flows *)

Lemma validate_input_returns (user_data : gmap string string) :
  (exists info, validate_input user_data = Return info
                /\ info !! "title" = Some "Energy Device Monitor"
                /\ info !! "low_tariff_entity" = user_data !! CONF_LOW_TARIFF_ENTITY
                /\ info !! "high_tariff_entity" = user_data !! CONF_HIGH_TARIFF_ENTITY)
  /\ is_Some (user_data !! CONF_LOW_TARIFF_ENTITY)
  /\ is_Some (user_data !! CONF_HIGH_TARIFF_ENTITY)
  \/ validate_input user_data = Raise KeyError
     /\ ~ (is_Some (user_data !! CONF_LOW_TARIFF_ENTITY)
           /\ is_Some (user_data !! CONF_HIGH_TARIFF_ENTITY)).
Proof.
  unfold validate_input, py_bind, subscript.
  destruct (user_data !! CONF_LOW_TARIFF_ENTITY) as [low|] eqn:Hl;
    [|right; split; [reflexivity | intros [[? ?] _]; discriminate]].
  destruct (user_data !! CONF_HIGH_TARIFF_ENTITY) as [high|] eqn:Hh;
    [|right; split; [reflexivity | intros [_ [? ?]]; discriminate]].
  left. split; [|split; eauto].
  eexists. split; [reflexivity|].
  repeat split; vm_compute; reflexivity.
Qed.

Lemma validate_device_input_returns (CONF_DEVICE_KEY : string)
    (user_data : gmap string string) :
  (exists info device_name,
     validate_device_input CONF_DEVICE_KEY user_data = Return info
     /\ info !! "device_name" = Some device_name
     /\ user_data !! CONF_DEVICE_NAME = Some device_name)
  /\ is_Some (user_data !! CONF_DEVICE_KEY)
  /\ is_Some (user_data !! CONF_LOW_CONSUMPTION_ENTITY)
  /\ is_Some (user_data !! CONF_HIGH_CONSUMPTION_ENTITY)
  \/ validate_device_input CONF_DEVICE_KEY user_data = Raise KeyError
     /\ ~ (is_Some (user_data !! CONF_DEVICE_NAME)
           /\ is_Some (user_data !! CONF_DEVICE_KEY)
           /\ is_Some (user_data !! CONF_LOW_CONSUMPTION_ENTITY)
           /\ is_Some (user_data !! CONF_HIGH_CONSUMPTION_ENTITY)).
Proof.
  unfold validate_device_input, py_bind, subscript.
  destruct (user_data !! CONF_DEVICE_NAME) as [name|] eqn:Hn;
    [|right; split; [reflexivity | intros ([? ?] & _); discriminate]].
  destruct (user_data !! CONF_DEVICE_KEY) as [key|] eqn:Hk;
    [|right; split; [reflexivity | intros (_ & [? ?] & _); discriminate]].
  destruct (user_data !! CONF_LOW_CONSUMPTION_ENTITY) as [low|] eqn:Hl;
    [|right; split; [reflexivity | intros (_ & _ & [? ?] & _); discriminate]].
  destruct (user_data !! CONF_HIGH_CONSUMPTION_ENTITY) as [high|] eqn:Hh;
    [|right; split; [reflexivity | intros (_ & _ & _ & [? ?]); discriminate]].
  left. split; [|repeat split; eauto].
  eexists. exists name. split; [reflexivity|].
  split; [vm_compute; reflexivity | reflexivity].
Qed.


(** X21.  The two flows check every key the sensors read but one.  For an
    entry created by the config flow and a subentry created by the device
    flow, the subentry's title is its device name, and a sensor constructor
    returns exactly when the subentry's data holds the friendly name key,
    raising [KeyError] otherwise; if the friendly name key is the device key
    the flow asked for, every constructor returns. *)
Theorem flows_provide_sensor_keys (unique_id_configured : string -> bool)
    (user_input : option (gmap string string)) (title : string)
    (entry : gmap string string) (unique_id : option string)
    (CONF_DEVICE_KEY : string) (device_input : option (gmap string string))
    (device_title : string) (subentry : gmap string string) :
  ConfigFlow.async_step_user unique_id_configured user_input
  = (Returned (async_create_entry title entry), unique_id) ->
  DeviceSubentryFlowHandler.async_step_user CONF_DEVICE_KEY device_input
  = Returned (async_create_entry device_title subentry) ->
  subentry !! CONF_DEVICE_NAME = Some device_title
  /\ (forall cls CONF_DEVICE_FRIENDLY_NAME,
        ((exists self tracked,
            new cls CONF_DEVICE_FRIENDLY_NAME entry subentry
            = Return (self, tracked))
         <-> is_Some (subentry !! CONF_DEVICE_FRIENDLY_NAME))
        /\ (is_Some (subentry !! CONF_DEVICE_FRIENDLY_NAME)
            \/ new cls CONF_DEVICE_FRIENDLY_NAME entry subentry = Raise KeyError))
  /\ (forall cls, exists self tracked,
        new cls CONF_DEVICE_KEY entry subentry = Return (self, tracked)).
Proof.
  intros Hentry Hdevice.
  assert (Hkeys : is_Some (entry !! CONF_LOW_TARIFF_ENTITY)
                  /\ is_Some (entry !! CONF_HIGH_TARIFF_ENTITY)).
  { unfold ConfigFlow.async_step_user in Hentry.
    destruct user_input as [input|]; [|discriminate].
    destruct (validate_input_returns input)
      as [((info & Hv & Ht & _) & Hl & Hh)|(Hv & _)];
      rewrite Hv in Hentry; [|discriminate].
    destruct (unique_id_configured DOMAIN); [discriminate|].
    unfold subscript in Hentry. rewrite Ht in Hentry.
    injection Hentry as _ <- _. auto. }
  assert (Hdev : subentry !! CONF_DEVICE_NAME = Some device_title
                 /\ is_Some (subentry !! CONF_DEVICE_KEY)
                 /\ is_Some (subentry !! CONF_LOW_CONSUMPTION_ENTITY)
                 /\ is_Some (subentry !! CONF_HIGH_CONSUMPTION_ENTITY)).
  { unfold DeviceSubentryFlowHandler.async_step_user in Hdevice.
    destruct device_input as [input|]; [|discriminate].
    destruct (validate_device_input_returns CONF_DEVICE_KEY input)
      as [((info & name & Hv & Hi & Hn) & Hk & Hl & Hh)|(Hv & _)];
      rewrite Hv in Hdevice; [|discriminate].
    unfold subscript in Hdevice. rewrite Hi in Hdevice.
    injection Hdevice as <- <-. auto. }
  destruct Hkeys as (Hlt & Hht). destruct Hdev as (Hname & Hkey & Hlc & Hhc).
  assert (Hall : forall i, is_Some (config_value i entry subentry))
    by (intros []; assumption).
  assert (Hiff : forall cls CFN,
             (exists self tracked,
                new cls CFN entry subentry = Return (self, tracked))
             <-> is_Some (subentry !! CFN)).
  { intros cls CFN. rewrite new_returns_iff_keys. split.
    - intros (_ & Hf & _). exact Hf.
    - intros Hf. split; [eauto | split; [exact Hf | auto]]. }
  split; [exact Hname | split].
  - intros cls CFN. split; [apply Hiff|].
    destruct (new cls CFN entry subentry) as [[self tracked]|e] eqn:Hnew.
    + left. apply (proj1 (Hiff cls CFN)). rewrite Hnew. eauto.
    + right. f_equal. exact (new_raises_only_KeyError _ _ _ _ _ Hnew).
  - intros cls. apply (proj2 (Hiff cls CONF_DEVICE_KEY)). exact Hkey.
Qed.

Lemma flows_provide_sensor_keys_witness :
  ConfigFlow.async_step_user (fun _ => false) (Some sample_entry)
  = (Returned (async_create_entry "Energy Device Monitor" sample_entry),
     Some DOMAIN)
  /\ DeviceSubentryFlowHandler.async_step_user sample_device_key
       (Some sample_device_input)
     = Returned (async_create_entry "boiler" sample_device_input)
  /\ sample_device_input !! CONF_DEVICE_NAME = Some "boiler"
  /\ (forall cls, exists self tracked,
        new cls sample_device_key sample_entry sample_device_input
        = Return (self, tracked)).
Proof.
  assert (He : ConfigFlow.async_step_user (fun _ => false) (Some sample_entry)
               = (Returned (async_create_entry "Energy Device Monitor"
                              sample_entry), Some DOMAIN))
    by (vm_compute; reflexivity).
  assert (Hd : DeviceSubentryFlowHandler.async_step_user sample_device_key
                 (Some sample_device_input)
               = Returned (async_create_entry "boiler" sample_device_input))
    by (vm_compute; reflexivity).
  split; [exact He | split; [exact Hd|]].
  destruct (flows_provide_sensor_keys _ _ _ _ _ _ _ _ _ He Hd) as (Hn & _ & Hk).
  split; [exact Hn | exact Hk].
Defined.
